(** * ChildGuard backend: account lifecycle and password recovery

A shallow embedding of the Express handlers of [src/server.js] (the
variant that mails a 6-digit reset code) and of [src/unnamed/part_000]
(the variant that mails a reset token), followed by the properties of
the password-recovery workflow and of the account lifecycle.

A handler is a function from the request, the values it reads from its
environment (clock readings, random numbers, the outcome of the mail and
chat services) and the user collection to the HTTP outcome and the new
collection. *)

From Stdlib Require Import ZArith NArith String Ascii List Bool Lia.
From Stdlib Require Import SpecFloat.
Import ListNotations.

Local Open Scope string_scope.
Local Open Scope Z_scope.

(** ** JavaScript numbers

    The reset code is computed with IEEE-754 binary64 arithmetic:
    [Math.floor(100000 + Math.random() * 900000)].  Every finite
    non-negative binary64 value is an integer multiple of [2^-1074]; such a
    value [v] is represented by the integer [v * 2^1074].  The operands of
    the server's expression stay below [2^20], far from the overflow
    threshold, which the model therefore leaves out. *)
Module Number.

Definition scale : Z := 2 ^ 1074.

(** Number of low bits that a 53-bit significand cannot hold. *)
Definition excess (n : Z) : Z := Z.max 0 (Z.log2 n - 52).

(** Round to nearest, ties to even: the rounding every binary64
    operation applies to its exact result. *)
Definition round (n : Z) : Z :=
  let s := excess n in
  let q := n / 2 ^ s in
  let r := n mod 2 ^ s in
  let half := 2 ^ (s - 1) in
  if s =? 0 then n
  else if r <? half then q * 2 ^ s
  else if half <? r then (q + 1) * 2 ^ s
  else if Z.even q then q * 2 ^ s
  else (q + 1) * 2 ^ s.

(** [round] with the number of dropped bits given. *)
Definition round_at (s n : Z) : Z :=
  let q := n / 2 ^ s in
  let r := n mod 2 ^ s in
  let half := 2 ^ (s - 1) in
  if s =? 0 then n
  else if r <? half then q * 2 ^ s
  else if half <? r then (q + 1) * 2 ^ s
  else if Z.even q then q * 2 ^ s
  else (q + 1) * 2 ^ s.

(** The values a binary64 variable can hold. *)
Definition is_double (x : Z) : Prop := 0 <= x /\ round x = x.

(** An integer literal such as [100000] or [900000]. *)
Definition of_int (k : Z) : Z := k * scale.

(** [x * k] for an integer-valued right operand [k]: the exact product
    is again a multiple of [2^-1074]. *)
Definition mul_int (x k : Z) : Z := round (x * k).

(** [x + y]. *)
Definition add (x y : Z) : Z := round (x + y).

(** [Math.floor(x)], an integer. *)
Definition floor (x : Z) : Z := x / scale.

(** [Math.random()] returns a double in [[0, 1)]. *)
Definition is_random (x : Z) : Prop := is_double x /\ x < scale.

(** The largest double below 1, [1 - 2^-53]. *)
Definition max_random : Z := (2 ^ 53 - 1) * 2 ^ 1021.

Definition digit (d : Z) : ascii := ascii_of_N (48 + Z.to_N d).

Fixpoint digits (fuel : nat) (n : Z) (acc : string) : string :=
  match fuel with
  | O => acc
  | S fuel' =>
      let acc' := String (digit (n mod 10)) acc in
      if n / 10 =? 0 then acc' else digits fuel' (n / 10) acc'
  end.

(** [n.toString()] for a non-negative integer [n]: its decimal digits. *)
Definition toString (n : Z) : string :=
  digits (S (Z.to_nat (Z.log2 n))) n "".

Definition is_digit (c : ascii) : bool :=
  ((48 <=? nat_of_ascii c) && (nat_of_ascii c <=? 57))%nat.

Fixpoint all_digits (s : string) : bool :=
  match s with
  | EmptyString => true
  | String c s' => is_digit c && all_digits s'
  end.

(** The decimal value of a string of digits. *)
Fixpoint value_acc (s : string) (acc : Z) : Z :=
  match s with
  | EmptyString => acc
  | String c s' => value_acc s' (10 * acc + (Z.of_nat (nat_of_ascii c) - 48))
  end.

Definition value (s : string) : Z := value_acc s 0.

End Number.

(** ** The standard library's binary64, for comparison

    [SpecFloat] specifies the IEEE-754 operations on sign, mantissa and
    exponent.  Its operations at precision 53 are read back on the
    [2^-1074] grid so that [Number] can be tested against them. *)
Module Ieee.

Definition to_grid (f : spec_float) : option Z :=
  match f with
  | S754_zero _ => Some 0
  | S754_finite false m e => Some (Z.pos m * 2 ^ (e + 1074))
  | _ => None
  end.

Definition of_grid (x : Z) : spec_float :=
  binary_normalize 53 1024 x (-1074) false.

Definition round (x : Z) : option Z := to_grid (of_grid x).

Definition mul (x y : Z) : option Z :=
  to_grid (SFmul 53 1024 (of_grid x) (of_grid y)).

Definition add (x y : Z) : option Z :=
  to_grid (SFadd 53 1024 (of_grid x) (of_grid y)).

(** Exact values on the grid: zero, subnormals, ties towards an even and
    towards an odd significand, values just below a power of two, the
    largest double below 1 and its neighbours, and quotients that fill all
    53 bits. *)
Definition samples : list Z :=
  [0; 1; 2; 3; 2 ^ 52; 2 ^ 53 - 1; 2 ^ 53 + 1; 2 ^ 53 + 2; 2 ^ 53 + 3;
   2 ^ 54 + 2; 2 ^ 54 + 6; 2 ^ 54 + 7; 2 ^ 100 + 2 ^ 46; 2 ^ 100 + 2 ^ 47;
   2 ^ 100 + 2 ^ 47 + 1; 2 ^ 100 + 2 ^ 47 + 2 ^ 48; 2 ^ 1073;
   (2 ^ 53 - 1) * 2 ^ 1020; (2 ^ 53 - 1) * 2 ^ 1021; 2 ^ 1074 - 1;
   2 ^ 1074 / 3; 2 ^ 1074 / 7; 2 ^ 1074 / 900000;
   5 * 2 ^ 1070 + 2 ^ 1017; 5 * 2 ^ 1070 + 3 * 2 ^ 1017;
   123456789 * 2 ^ 1000 + 987654321 * 2 ^ 900].

Definition same (a : option Z) (b : Z) : bool :=
  match a with
  | Some x => x =? b
  | None => false
  end.

(** [Number] and [SpecFloat] agree on rounding a sample, on multiplying
    the rounded sample by 900000 and on adding 100000 to the product. *)
Definition agree (x : Z) : bool :=
  let d := Number.round x in
  let p := Number.mul_int d 900000 in
  same (round x) d
  && same (mul d (Number.of_int 900000)) p
  && same (add (Number.of_int 100000) p) (Number.add (Number.of_int 100000) p).

End Ieee.

(** ** Request fields and HTTP outcomes *)
Module Http.

(** A field of a JSON request body as the handlers use it: absent
    ([undefined]) or a string.  The requests covered are those whose
    fields are absent or strings; what the schema casts of the store do
    with a number, an array or an object in their place is not decided
    in this repository, and no statement below speaks of such a
    request. *)
Definition field := option string.

(** JavaScript truthiness, as tested by [!x]: [undefined] and the empty
    string are falsy. *)
Definition truthy (f : field) : bool :=
  match f with
  | Some s => negb (String.eqb s "")
  | None => false
  end.

(** The string held by a field that passed the truthiness test. *)
Definition str (f : field) : string :=
  match f with
  | Some s => s
  | None => ""
  end.

(** A signup body with every field the handler asks for. *)
Definition complete (name email password phone validId selfie : field) : Prop :=
  truthy name = true /\ truthy email = true /\ truthy password = true
  /\ truthy phone = true /\ truthy validId = true /\ truthy selfie = true.

(** [a !== b] on values that are strings or [undefined]. *)
Definition strict_neq (a b : field) : bool :=
  match a, b with
  | Some x, Some y => negb (String.eqb x y)
  | None, None => false
  | _, _ => true
  end.

(** [d < now] and [d > now] for a [Date] path [d] that may be unset:
    a comparison with [undefined] is false. *)
Definition date_lt (d : option Z) (now : Z) : bool :=
  match d with
  | Some t => t <? now
  | None => false
  end.

Definition date_gt (d : option Z) (now : Z) : bool :=
  match d with
  | Some t => now <? t
  | None => false
  end.

(** Why the document store rejected a write. *)
Inductive StoreError :=
| ValidationError (paths : list string)
| DuplicateKey (path : string).

(** The JSON payloads the handlers send; [V] is the user document as
    it is serialised. *)
Inductive body (V : Type) :=
| BError (error : string)
| BErrorDetails (error : string) (details : StoreError)
| BMessage (message : string)
| BSuccess (success : bool) (message : string)
| BSession (token : string) (userId : N) (name email phone : string)
           (chatToken : string)
| BUser (user : option V).

Arguments BError {V} error.
Arguments BErrorDetails {V} error details.
Arguments BMessage {V} message.
Arguments BSuccess {V} success message.
Arguments BSession {V} token userId name email phone chatToken.
Arguments BUser {V} user.

(** What the client observes.  [Unhandled]: the promise of an [async]
    handler rejected outside any [try] block; the handler itself sends
    nothing and what follows is left to the framework. *)
Inductive outcome (V : Type) :=
| Respond (status : Z) (payload : body V)
| Unhandled.

Arguments Respond {V} status payload.
Arguments Unhandled {V}.

Definition status_of {V} (o : outcome V) : option Z :=
  match o with
  | Respond st _ => Some st
  | Unhandled => None
  end.

(** Whether the client receives a session token and a chat credential. *)
Definition carries_session {V} (o : outcome V) : bool :=
  match o with
  | Respond _ (BSession _ _ _ _ _ _) => true
  | _ => false
  end.

(** The capabilities the handlers consume as black boxes. *)
Class Collaborators := {
  (** [bcrypt.hash(password, 10)], given the salt it draws. *)
  bcrypt_hash : string -> string -> string;
  (** [bcrypt.compare(password, digest)]. *)
  bcrypt_compare : string -> string -> bool;
  (** [jwt.sign({ userId }, JWT_SECRET, { expiresIn: "1h" })]. *)
  jwt_sign : N -> string;
  (** [streamChat.createToken(id)]. *)
  createToken : N -> string;
  (** The driver's cast of a path parameter to an ObjectId; [None] when
      it throws a cast error. *)
  castObjectId : string -> option N
}.

End Http.

Import Http.

(** ** [src/server.js]: the variant with a 6-digit reset code *)
Module ServerJs.

Inductive Role := role_admin | role_user.
Inductive Status := pending | approved.

(** A document of the [User] collection, after the paths that
    [UserSchema] declares.  String paths that the handlers may leave unset
    are optional; [Date] paths hold milliseconds since the epoch, which is
    what a comparison with [Date.now()] reads.  The [createdAt] and
    [updatedAt] stamps that the [timestamps] option maintains are read by
    no handler and are left out of this record; [ServerJsStamped] adds
    them for the avatar route, where a statement about the stored
    document depends on them. *)
Module User.

Record t := mk {
  _id : N;
  name : string;
  email : string;
  password : string;
  phone : string;
  age : option string;
  gender : option string;
  role : Role;
  avatar : option string;
  status : Status;
  validId : option string;
  selfie : option string;
  resetCode : option string;
  resetCodeExpires : option Z
}.

Definition set_password (v : string) (u : t) : t :=
  mk (_id u) (name u) (email u) v (phone u) (age u) (gender u) (role u)
     (avatar u) (status u) (validId u) (selfie u) (resetCode u)
     (resetCodeExpires u).

Definition set_avatar (v : option string) (u : t) : t :=
  mk (_id u) (name u) (email u) (password u) (phone u) (age u) (gender u)
     (role u) v (status u) (validId u) (selfie u) (resetCode u)
     (resetCodeExpires u).

Definition set_resetCode (v : option string) (u : t) : t :=
  mk (_id u) (name u) (email u) (password u) (phone u) (age u) (gender u)
     (role u) (avatar u) (status u) (validId u) (selfie u) v
     (resetCodeExpires u).

Definition set_resetCodeExpires (v : option Z) (u : t) : t :=
  mk (_id u) (name u) (email u) (password u) (phone u) (age u) (gender u)
     (role u) (avatar u) (status u) (validId u) (selfie u) (resetCode u) v.

(** The document without its [password] path: [.select("-password")]. *)
Record selected := mk_selected {
  s_id : N;
  s_name : string;
  s_email : string;
  s_phone : string;
  s_age : option string;
  s_gender : option string;
  s_role : Role;
  s_avatar : option string;
  s_status : Status;
  s_validId : option string;
  s_selfie : option string;
  s_resetCode : option string;
  s_resetCodeExpires : option Z
}.

Definition select_minus_password (u : t) : selected :=
  mk_selected (_id u) (name u) (email u) (phone u) (age u) (gender u)
              (role u) (avatar u) (status u) (validId u) (selfie u)
              (resetCode u) (resetCodeExpires u).

End User.

Definition collection := list User.t.
Definition outcome := Http.outcome User.selected.

(** *** The document store *)

(** [User.findOne({ email })]: the first document with that email. *)
Definition findOne_email (email : string) (db : collection) : option User.t :=
  find (fun u => String.eqb (User.email u) email) db.

(** [User.findOne({ phone })]. *)
Definition findOne_phone (phone : string) (db : collection) : option User.t :=
  find (fun u => String.eqb (User.phone u) phone) db.

(** [User.findById(id)], once the id is cast. *)
Definition findById (id : N) (db : collection) : option User.t :=
  find (fun u => N.eqb (User._id u) id) db.

(** Apply [f] to the first document whose [_id] is [id], if any. *)
Fixpoint updateById (id : N) (f : User.t -> User.t) (db : collection)
  : collection :=
  match db with
  | [] => []
  | u :: rest =>
      if N.eqb (User._id u) id then f u :: rest
      else u :: updateById id f rest
  end.

(** The paths that [UserSchema] marks [required: true] and that hold no
    non-empty string in [u]; the validation that [save()] runs fails on
    them. *)
Definition required_missing (u : User.t) : list string :=
  ((if String.eqb (User.name u) "" then ["name"] else [])
  ++ (if String.eqb (User.email u) "" then ["email"] else [])
  ++ (if String.eqb (User.password u) "" then ["password"] else [])
  ++ (if String.eqb (User.phone u) "" then ["phone"] else [])
  ++ (if truthy (User.age u) then [] else ["age"])
  ++ (if truthy (User.gender u) then [] else ["gender"]))%list.

(** [user.save()] on a document read from the collection. *)
Definition save (u : User.t) (db : collection) : StoreError + collection :=
  match required_missing u with
  | [] => inr (updateById (User._id u) (fun _ => u) db)
  | paths => inl (ValidationError paths)
  end.

(** [user.save()] on a document made by [new User(...)]: validation,
    then an insert that the unique index on [email] can refuse. *)
Definition insert (u : User.t) (db : collection) : StoreError + collection :=
  match required_missing u with
  | [] =>
      match findOne_email (User.email u) db with
      | Some _ => inl (DuplicateKey "email")
      | None => inr (db ++ [u])%list
      end
  | paths => inl (ValidationError paths)
  end.

Section Handlers.
Context {C : Collaborators}.

(** *** POST /signup
    [salt] is the salt that [bcrypt.hash] draws and [newId] the
    [_id] that [new User] generates. *)
Definition signup (name email password phone validId selfie : field)
           (salt : string) (newId : N) (db : collection)
  : outcome * collection :=
  if negb (truthy name) || negb (truthy email) || negb (truthy password)
     || negb (truthy phone) || negb (truthy validId)
     || negb (truthy selfie)
  then (Respond 400 (BError "Missing email or password"), db)
  else
    match findOne_email (str email) db with
    | Some _ => (Respond 400 (BError "User already exists"), db)
    | None =>
        match findOne_phone (str phone) db with
        | Some _ => (Respond 400 (BError "User already exists"), db)
        | None =>
            let hashedPassword := bcrypt_hash salt (str password) in
            let user :=
              User.mk newId (str name) (str email) hashedPassword
                      (str phone) None None role_user None pending
                      validId selfie None None in
            match insert user db with
            | inr db' => (Respond 201 (BMessage "Signup successful"), db')
            | inl err =>
                (Respond 500 (BErrorDetails "Internal server error" err),
                 db)
            end
        end
    end.

(** *** POST /login
    [chat_ok] tells whether [streamChat.upsertUser] resolved;
    [bcrypt.compare] rejects a password that is not a string.  The email
    of the request is a string: what the driver does with another filter
    value is not decided in this repository. *)
Definition login (email : string) (password : field) (chat_ok : bool)
           (db : collection) : outcome :=
  match findOne_email email db with
  | None => Respond 400 (BError "Invalid email or password")
  | Some user =>
      match password with
      | None => Respond 500 (BError "Internal server error")
      | Some password' =>
          if negb (bcrypt_compare password' (User.password user))
          then Respond 400 (BError "Invalid email or password")
          else
            match User.status user with
            | pending =>
                Respond 403 (BError "Your account is pending approval")
            | approved =>
                let token := jwt_sign (User._id user) in
                if chat_ok then
                  let chatToken := createToken (User._id user) in
                  Respond 200
                    (BSession token (User._id user) (User.name user)
                              (User.email user) (User.phone user)
                              chatToken)
                else Respond 500 (BError "Internal server error")
            end
      end
  end.

(** *** GET /api/users/:id *)
Definition get_user (id : string) (db : collection) : outcome :=
  match castObjectId id with
  | None => Respond 500 (BError "Error fetching user data")
  | Some oid =>
      Respond 200
        (BUser (option_map User.select_minus_password (findById oid db)))
  end.

(** *** POST /api/users/:id/avatar
    [avatar] is the avatar reference of the body, a string.
    [findByIdAndUpdate] runs no validation and its result is not
    looked at.  This is the handler on the declared paths;
    [ServerJsStamped.update_avatar] is the same handler with the
    [updatedAt] stamp that the update also writes. *)
Definition update_avatar (id : string) (avatar : string) (db : collection)
  : outcome * collection :=
  match castObjectId id with
  | None => (Respond 500 (BError "Failed to update avatar"), db)
  | Some oid =>
      (Respond 200 (BMessage "Avatar updated"),
       updateById oid (User.set_avatar (Some avatar)) db)
  end.

(** *** POST /request-reset
    [now1] and [now2] are the two readings of [Date.now()], [random]
    is the double that [Math.random()] returns and [mail_ok] tells
    whether [sendMail] succeeded.  The handler has no [try] block. *)
Definition reset_code (random : Z) : string :=
  Number.toString
    (Number.floor
       (Number.add (Number.of_int 100000) (Number.mul_int random 900000))).

Definition request_reset (email : string) (now1 now2 : Z) (random : Z)
           (mail_ok : bool) (db : collection) : outcome * collection :=
  match findOne_email email db with
  | None =>
      (Respond 404 (BSuccess false "User not found with that email"), db)
  | Some user =>
      if date_gt (User.resetCodeExpires user) now1
      then (Respond 429
              (BSuccess false "Please wait before requesting a new code."),
            db)
      else
        let code := reset_code random in
        let user := User.set_resetCode (Some code) user in
        let user :=
          User.set_resetCodeExpires (Some (now2 + 10 * 60 * 1000)) user in
        match save user db with
        | inl _ => (Unhandled, db)
        | inr db' =>
            if mail_ok
            then (Respond 200 (BSuccess true "Reset code sent to email"),
                  db')
            else (Respond 500 (BMessage "Failed to send email"), db')
        end
  end.

(** *** POST /verify-reset
    [now1] and [now2] are the readings of [Date.now()] in the first
    and in the second test of the expiry; [salt] is drawn by
    [bcrypt.hash], which rejects a password that is not a string.
    The handler has no [try] block. *)
Definition verify_reset (email : string) (code password : field)
           (salt : string) (now1 now2 : Z) (db : collection)
  : outcome * collection :=
  match findOne_email email db with
  | None => (Respond 400 (BSuccess false "Invalid or expired code"), db)
  | Some user =>
      if strict_neq (User.resetCode user) code
         || date_lt (User.resetCodeExpires user) now1
      then (Respond 400 (BSuccess false "Invalid or expired code"), db)
      else if date_lt (User.resetCodeExpires user) now2
      then (Respond 400 (BMessage "Code expired"), db)
      else
        match password with
        | None => (Unhandled, db)
        | Some password' =>
            let user :=
              User.set_password (bcrypt_hash salt password') user in
            let user := User.set_resetCode None user in
            let user := User.set_resetCodeExpires None user in
            match save user db with
            | inl _ => (Unhandled, db)
            | inr db' =>
                (Respond 200 (BSuccess true "Password reset successfully"),
                 db')
            end
        end
  end.

(** The answer to a reset that is refused. *)
Definition invalid_or_expired_code : outcome :=
  Respond 400 (BSuccess false "Invalid or expired code").

(** The document as [verify_reset] writes it back. *)
Definition cleared (salt newPassword : string) (user : User.t) : User.t :=
  User.set_resetCodeExpires None
    (User.set_resetCode None
       (User.set_password (bcrypt_hash salt newPassword) user)).

(** The document as [request_reset] writes it back. *)
Definition issued (code : string) (now : Z) (user : User.t) : User.t :=
  User.set_resetCodeExpires (Some (now + 10 * 60 * 1000))
    (User.set_resetCode (Some code) user).

End Handlers.

End ServerJs.

(** ** [src/unnamed/part_000]: the variant with a reset token

    Its schema has no [age] and [gender] and names the secret
    [resetPasswordToken] and [resetPasswordExpires]; both recovery handlers
    run inside a [try] block that answers 500. *)
Module Part000.

Inductive Role := role_admin | role_user.
Inductive Status := pending | approved.

Module User.

Record t := mk {
  _id : N;
  name : string;
  email : string;
  password : string;
  phone : string;
  role : Role;
  avatar : option string;
  status : Status;
  validId : option string;
  selfie : option string;
  resetPasswordToken : option string;
  resetPasswordExpires : option Z
}.

Definition set_password (v : string) (u : t) : t :=
  mk (_id u) (name u) (email u) v (phone u) (role u) (avatar u) (status u)
     (validId u) (selfie u) (resetPasswordToken u)
     (resetPasswordExpires u).

Definition set_resetPasswordToken (v : option string) (u : t) : t :=
  mk (_id u) (name u) (email u) (password u) (phone u) (role u) (avatar u)
     (status u) (validId u) (selfie u) v (resetPasswordExpires u).

Definition set_resetPasswordExpires (v : option Z) (u : t) : t :=
  mk (_id u) (name u) (email u) (password u) (phone u) (role u) (avatar u)
     (status u) (validId u) (selfie u) (resetPasswordToken u) v.

End User.

Definition collection := list User.t.
Definition outcome := Http.outcome User.t.

Definition findOne_email (email : string) (db : collection) : option User.t :=
  find (fun u => String.eqb (User.email u) email) db.

Definition findOne_phone (phone : string) (db : collection) : option User.t :=
  find (fun u => String.eqb (User.phone u) phone) db.

Definition findById (id : N) (db : collection) : option User.t :=
  find (fun u => N.eqb (User._id u) id) db.

(** [User.findOne({ resetPasswordToken: token,
                    resetPasswordExpires: { $gt: now } })]. *)
Definition findOne_token (token : string) (now : Z) (db : collection)
  : option User.t :=
  find (fun u =>
          match User.resetPasswordToken u with
          | Some t => String.eqb t token
          | None => false
          end
          && date_gt (User.resetPasswordExpires u) now) db.

Fixpoint updateById (id : N) (f : User.t -> User.t) (db : collection)
  : collection :=
  match db with
  | [] => []
  | u :: rest =>
      if N.eqb (User._id u) id then f u :: rest
      else u :: updateById id f rest
  end.

Definition required_missing (u : User.t) : list string :=
  ((if String.eqb (User.name u) "" then ["name"] else [])
  ++ (if String.eqb (User.email u) "" then ["email"] else [])
  ++ (if String.eqb (User.password u) "" then ["password"] else [])
  ++ (if String.eqb (User.phone u) "" then ["phone"] else []))%list.

Definition save (u : User.t) (db : collection) : StoreError + collection :=
  match required_missing u with
  | [] => inr (updateById (User._id u) (fun _ => u) db)
  | paths => inl (ValidationError paths)
  end.

Definition insert (u : User.t) (db : collection) : StoreError + collection :=
  match required_missing u with
  | [] =>
      match findOne_email (User.email u) db with
      | Some _ => inl (DuplicateKey "email")
      | None => inr (db ++ [u])%list
      end
  | paths => inl (ValidationError paths)
  end.

(** [buffer.toString("hex")]. *)
Definition hex_digit (n : N) : ascii :=
  match String.get (N.to_nat n) "0123456789abcdef" with
  | Some c => c
  | None => "0"%char
  end.

Fixpoint toHex (bytes : list Byte.byte) : string :=
  match bytes with
  | [] => ""
  | b :: rest =>
      String (hex_digit (Byte.to_N b / 16))
             (String (hex_digit (Byte.to_N b mod 16)) (toHex rest))
  end.

Section Handlers.
Context {C : Collaborators}.

(** *** POST /signup *)
Definition signup (name email password phone validId selfie : field)
           (salt : string) (newId : N) (db : collection)
  : outcome * collection :=
  if negb (truthy name) || negb (truthy email) || negb (truthy password)
     || negb (truthy phone) || negb (truthy validId)
     || negb (truthy selfie)
  then (Respond 400 (BError "Missing email or password"), db)
  else
    match findOne_email (str email) db with
    | Some _ => (Respond 400 (BError "User already exists"), db)
    | None =>
        match findOne_phone (str phone) db with
        | Some _ => (Respond 400 (BError "User already exists"), db)
        | None =>
            let hashedPassword := bcrypt_hash salt (str password) in
            let user :=
              User.mk newId (str name) (str email) hashedPassword
                      (str phone) role_user None pending validId selfie
                      None None in
            match insert user db with
            | inr db' => (Respond 201 (BMessage "Signup successful"), db')
            | inl err =>
                (Respond 500 (BErrorDetails "Internal server error" err),
                 db)
            end
        end
    end.

(** *** POST /forgot-password
    [randomBytes] is the buffer that [crypto.randomBytes(20)] returns,
    [now] the reading of [Date.now()]. *)
Definition forgot_password (email : string) (randomBytes : list Byte.byte)
           (now : Z) (mail_ok : bool) (db : collection)
  : outcome * collection :=
  match findOne_email email db with
  | None => (Respond 404 (BMessage "User not found with that email"), db)
  | Some user =>
      let token := toHex randomBytes in
      let user := User.set_resetPasswordToken (Some token) user in
      let user := User.set_resetPasswordExpires (Some (now + 3600000)) user in
      match save user db with
      | inl _ => (Respond 500 (BMessage "Internal server error"), db)
      | inr db' =>
          if mail_ok
          then (Respond 200 (BMessage "Reset email sent successfully"), db')
          else (Respond 500 (BMessage "Email failed to send"), db')
      end
  end.

(** *** POST /reset-password/:token *)
Definition reset_password (token : string) (password : field)
           (salt : string) (now : Z) (db : collection)
  : outcome * collection :=
  match findOne_token token now db with
  | None => (Respond 400 (BMessage "Invalid or expired token"), db)
  | Some user =>
      match password with
      | None => (Respond 500 (BMessage "Internal server error"), db)
      | Some password' =>
          let hashed := bcrypt_hash salt password' in
          let user := User.set_password hashed user in
          let user := User.set_resetPasswordToken None user in
          let user := User.set_resetPasswordExpires None user in
          match save user db with
          | inl _ => (Respond 500 (BMessage "Internal server error"), db)
          | inr db' =>
              (Respond 200
                 (BMessage "Password has been reset successfully"), db')
          end
      end
  end.

(** The answer to a reset that is refused. *)
Definition invalid_or_expired_token : outcome :=
  Respond 400 (BMessage "Invalid or expired token").

(** The document as [reset_password] writes it back. *)
Definition cleared (salt newPassword : string) (user : User.t) : User.t :=
  User.set_resetPasswordExpires None
    (User.set_resetPasswordToken None
       (User.set_password (bcrypt_hash salt newPassword) user)).

(** The document as [forgot_password] writes it back. *)
Definition issued (token : string) (now : Z) (user : User.t) : User.t :=
  User.set_resetPasswordExpires (Some (now + 3600000))
    (User.set_resetPasswordToken (Some token) user).

End Handlers.

End Part000.

(** ** Concrete collaborators and documents for closed examples *)
Module Fixture.

Definition hex_value (c : ascii) : option N :=
  let n := N_of_ascii c in
  if ((48 <=? n) && (n <=? 57))%N then Some (n - 48)%N
  else if ((97 <=? n) && (n <=? 102))%N then Some (n - 87)%N
  else if ((65 <=? n) && (n <=? 70))%N then Some (n - 55)%N
  else None.

Fixpoint parse_hex (s : string) (acc : N) : option N :=
  match s with
  | EmptyString => Some acc
  | String c s' =>
      match hex_value c with
      | Some d => parse_hex s' (16 * acc + d)%N
      | None => None
      end
  end.

(** An ObjectId is written as 24 hexadecimal digits. *)
Definition cast24 (s : string) : option N :=
  if Nat.eqb (String.length s) 24 then parse_hex s 0%N else None.

Definition is_suffix (p d : string) : bool :=
  String.eqb
    (substring (String.length d - String.length p) (String.length p) d) p.

#[global] Instance collaborators : Collaborators := {|
  bcrypt_hash := fun salt password => ("$2a$10$" ++ salt ++ password)%string;
  bcrypt_compare := fun password digest => is_suffix password digest;
  jwt_sign := fun _ => "session-token";
  createToken := fun _ => "chat-token";
  castObjectId := cast24
|}.

(** A user of the code variant with every required path set and no
    reset code. *)
Definition alice : ServerJs.User.t :=
  ServerJs.User.mk 1 "Alice" "alice@example.com" "$2a$10$s0OldPass1" "0917"
    (Some "30") (Some "F") ServerJs.role_user None ServerJs.approved
    (Some "id.png") (Some "me.png") None None.

(** The same user holding the code [123456] until time [1000]. *)
Definition alice_code : ServerJs.User.t :=
  ServerJs.User.set_resetCodeExpires (Some 1000)
    (ServerJs.User.set_resetCode (Some "123456") alice).

(** A user whose account awaits approval. *)
Definition bob : ServerJs.User.t :=
  ServerJs.User.mk 2 "Bob" "bob@example.com" "$2a$10$s1Secret9" "0918"
    (Some "41") (Some "M") ServerJs.role_user None ServerJs.pending
    (Some "id.png") (Some "me.png") None None.

(** A user of the token variant holding a token until time [5000]. *)
Definition carol : Part000.User.t :=
  Part000.User.mk 3 "Carol" "carol@example.com" "$2a$10$s2OldPass3" "0919"
    Part000.role_user None Part000.approved (Some "id.png") (Some "me.png")
    (Some "00ff00ff00ff00ff00ff00ff00ff00ff00ff00ff") (Some 5000).

(** A buffer as [crypto.randomBytes(20)] returns it. *)
Definition bytes20 : list Byte.byte :=
  [Byte.xab; Byte.xcd; Byte.x01; Byte.x23; Byte.x45; Byte.x67; Byte.x89;
   Byte.xef; Byte.x10; Byte.x32; Byte.x54; Byte.x76; Byte.x98; Byte.xba;
   Byte.xdc; Byte.xfe; Byte.x00; Byte.x11; Byte.x22; Byte.x33].

End Fixture.

(** ** The other account routes of [src/server.js] *)
Module ServerJsRest.
Import ServerJs.

Definition set_validId (v : option string) (u : User.t) : User.t :=
  User.mk (User._id u) (User.name u) (User.email u) (User.password u)
          (User.phone u) (User.age u) (User.gender u) (User.role u)
          (User.avatar u) (User.status u) v (User.selfie u)
          (User.resetCode u) (User.resetCodeExpires u).

Definition set_status (v : Status) (u : User.t) : User.t :=
  User.mk (User._id u) (User.name u) (User.email u) (User.password u)
          (User.phone u) (User.age u) (User.gender u) (User.role u)
          (User.avatar u) v (User.validId u) (User.selfie u)
          (User.resetCode u) (User.resetCodeExpires u).

(** [User.findByIdAndDelete(id)]: the first document whose [_id] is [id]
    leaves the collection. *)
Fixpoint removeById (id : N) (db : collection) : collection :=
  match db with
  | [] => []
  | u :: rest =>
      if N.eqb (User._id u) id then rest else u :: removeById id rest
  end.

(** The paths of a document that name the account and gate its login. *)
Definition identity (u : User.t)
  : N * string * string * string * Role * Status :=
  (User._id u, User.name u, User.email u, User.phone u, User.role u,
   User.status u).

(** The paths of a document that [login] reads. *)
Definition login_view (u : User.t)
  : string * string * Status * N * string * string :=
  (User.email u, User.password u, User.status u, User._id u, User.name u,
   User.phone u).

Section Handlers.
Context {C : Collaborators}.

(** *** POST /submit-id
    [userId] and [base64Image] are strings of the body.  The update sets
    [validId] and puts [status] back to ["pending"]. *)
Definition submit_id (userId base64Image : string) (db : collection)
  : outcome * collection :=
  match castObjectId userId with
  | None => (Respond 500 (BError "Error submitting ID"), db)
  | Some oid =>
      (Respond 200 (BMessage "Valid ID submitted, awaiting approval"),
       updateById oid
         (fun u => set_status pending (set_validId (Some base64Image) u)) db)
  end.

(** *** DELETE /api/users/:id
    [chat_ok] tells whether [streamChat.deleteUser] resolved; the document
    is deleted before the chat provider is called. *)
Definition delete_user (id : string) (chat_ok : bool) (db : collection)
  : outcome * collection :=
  match castObjectId id with
  | None => (Respond 500 (BError "Failed to delete user"), db)
  | Some userId =>
      match findById userId db with
      | None => (Respond 404 (BError "User not found"), db)
      | Some deletedUser =>
          let db' := removeById userId db in
          if chat_ok
          then (Respond 200
                  (BMessage "User deleted from MongoDB and Stream Chat"), db')
          else (Respond 500 (BError "Failed to delete user"), db')
      end
  end.

(** One call of [verify_reset] per attempt, each on the collection the
    previous one left: an attempt is the code and password of the body,
    the salt and the two clock readings. *)
Fixpoint verify_resets (email : string)
         (attempts : list (field * field * string * Z * Z)) (db : collection)
  : list outcome * collection :=
  match attempts with
  | [] => ([], db)
  | (code, password, salt, now1, now2) :: rest =>
      let (o, db1) := verify_reset email code password salt now1 now2 db in
      let (os, db2) := verify_resets email rest db1 in
      (o :: os, db2)
  end.

Definition attempt_code (a : field * field * string * Z * Z) : field :=
  match a with
  | (code, _, _, _, _) => code
  end.

End Handlers.

End ServerJsRest.

(** ** The login route of [src/unnamed/part_000] *)
Module Part000Rest.
Import Part000.

Definition identity (u : User.t)
  : N * string * string * string * Role * Status :=
  (User._id u, User.name u, User.email u, User.phone u, User.role u,
   User.status u).

(** The paths of a document that [login] reads. *)
Definition login_view (u : User.t)
  : string * string * Status * N * string * string :=
  (User.email u, User.password u, User.status u, User._id u, User.name u,
   User.phone u).

Definition is_lower_hex (c : ascii) : bool :=
  let n := N_of_ascii c in
  (((48 <=? n) && (n <=? 57)) || ((97 <=? n) && (n <=? 102)))%N.

Fixpoint all_lower_hex (s : string) : bool :=
  match s with
  | EmptyString => true
  | String c s' => is_lower_hex c && all_lower_hex s'
  end.

Section Handlers.
Context {C : Collaborators}.

(** *** POST /login *)
Definition login (email : string) (password : field) (chat_ok : bool)
           (db : collection) : outcome :=
  match findOne_email email db with
  | None => Respond 400 (BError "Invalid email or password")
  | Some user =>
      match password with
      | None => Respond 500 (BError "Internal server error")
      | Some password' =>
          if negb (bcrypt_compare password' (User.password user))
          then Respond 400 (BError "Invalid email or password")
          else
            match User.status user with
            | pending =>
                Respond 403 (BError "Your account is pending approval")
            | approved =>
                let token := jwt_sign (User._id user) in
                if chat_ok then
                  let chatToken := createToken (User._id user) in
                  Respond 200
                    (BSession token (User._id user) (User.name user)
                              (User.email user) (User.phone user) chatToken)
                else Respond 500 (BError "Internal server error")
            end
      end
  end.

End Handlers.

End Part000Rest.

(** ** The avatar route with the stamps of [timestamps: true] *)
Module ServerJsStamped.
Import ServerJs.

(** A document together with the [createdAt] and [updatedAt] paths that
    the [timestamps] option of [UserSchema] maintains. *)
Record Stamped := mk_stamped {
  doc : User.t;
  createdAt : Z;
  updatedAt : Z
}.

Definition findById (id : N) (db : list Stamped) : option Stamped :=
  find (fun s => N.eqb (User._id (doc s)) id) db.

(** [User.findByIdAndUpdate(id, update)] at the time [now]: the update
    is applied to the first document whose [_id] is [id], and
    [updatedAt] is set to [now] with it. *)
Fixpoint findByIdAndUpdate (id : N) (f : User.t -> User.t) (now : Z)
         (db : list Stamped) : list Stamped :=
  match db with
  | [] => []
  | s :: rest =>
      if N.eqb (User._id (doc s)) id
      then mk_stamped (f (doc s)) (createdAt s) now :: rest
      else s :: findByIdAndUpdate id f now rest
  end.

Section Handlers.
Context {C : Collaborators}.

(** *** POST /api/users/:id/avatar, with [now] the time of the update *)
Definition update_avatar (id : string) (avatar : string) (now : Z)
           (db : list Stamped) : outcome * list Stamped :=
  match castObjectId id with
  | None => (Respond 500 (BError "Failed to update avatar"), db)
  | Some oid =>
      (Respond 200 (BMessage "Avatar updated"),
       findByIdAndUpdate oid (User.set_avatar (Some avatar)) now db)
  end.

End Handlers.

(** Alice, created and last updated at time 100. *)
Definition alice : Stamped := mk_stamped Fixture.alice 100 100.

End ServerJsStamped.

(** * Properties *)

(** ** Binary64 rounding and the reset code *)
Section NumberFacts.
Import Number.

Lemma round_eq n : round n = round_at (excess n) n.
Proof. reflexivity. Qed.

Lemma excess_nonneg n : 0 <= excess n.
Proof. unfold excess. lia. Qed.

Lemma excess_mono a b : a <= b -> excess a <= excess b.
Proof.
  intros H. unfold excess. pose proof (Z.log2_le_mono a b H). lia.
Qed.

Lemma pow2_split s : 0 < s -> 2 ^ s = 2 * 2 ^ (s - 1) /\ 0 < 2 ^ (s - 1).
Proof.
  intros Hs. split.
  - replace s with (1 + (s - 1)) at 1 by lia.
    rewrite Z.pow_add_r by lia. reflexivity.
  - apply Z.pow_pos_nonneg; lia.
Qed.

Lemma round_at_mono s a b :
  0 <= s -> 0 <= a <= b -> round_at s a <= round_at s b.
Proof.
  intros Hs Hab. unfold round_at.
  destruct (Z.eqb_spec s 0) as [->|Hne]; [lia|].
  destruct (pow2_split s ltac:(lia)) as [HP Hh].
  set (P := 2 ^ s) in *. set (h := 2 ^ (s - 1)) in *.
  assert (HPpos : 0 < P) by lia.
  pose proof (Z.div_mod a P ltac:(lia)) as Ea.
  pose proof (Z.div_mod b P ltac:(lia)) as Eb.
  pose proof (Z.mod_pos_bound a P HPpos) as Ba.
  pose proof (Z.mod_pos_bound b P HPpos) as Bb.
  set (qa := a / P) in *. set (qb := b / P) in *.
  set (ra := a mod P) in *. set (rb := b mod P) in *.
  assert (Hq : qa <= qb) by (apply Z.div_le_mono; lia).
  destruct (Z.eq_dec qa qb) as [E|NE].
  - rewrite E in *.
    destruct (Z.ltb_spec ra h), (Z.ltb_spec rb h), (Z.ltb_spec h ra),
      (Z.ltb_spec h rb), (Z.even qb); nia.
  - destruct (Z.ltb_spec ra h), (Z.ltb_spec rb h), (Z.ltb_spec h ra),
      (Z.ltb_spec h rb), (Z.even qa), (Z.even qb); nia.
Qed.

Lemma round_bounds n :
  0 < n -> 2 ^ Z.log2 n <= round n <= 2 ^ (Z.log2 n + 1).
Proof.
  intros Hn. pose proof (Z.log2_spec n Hn) as [Hlo Hhi].
  rewrite <- Z.add_1_r in Hhi.
  unfold round, excess.
  destruct (Z.max_spec 0 (Z.log2 n - 52)) as [[Hk ->]|[Hk ->]].
  - assert (Hs : 0 < Z.log2 n - 52) by lia.
    destruct (Z.eqb_spec (Z.log2 n - 52) 0) as [?|_]; [lia|].
    set (s := Z.log2 n - 52) in *.
    assert (E1 : 2 ^ Z.log2 n = 2 ^ 52 * 2 ^ s).
    { rewrite <- Z.pow_add_r by lia. f_equal. lia. }
    assert (E2 : 2 ^ (Z.log2 n + 1) = 2 ^ 53 * 2 ^ s).
    { rewrite <- Z.pow_add_r by lia. f_equal. lia. }
    assert (HP : 0 < 2 ^ s) by (apply Z.pow_pos_nonneg; lia).
    rewrite E1 in *. rewrite E2 in *.
    set (P := 2 ^ s) in *.
    assert (Hq1 : 2 ^ 52 <= n / P) by (apply Z.div_le_lower_bound; lia).
    assert (Hq2 : n / P < 2 ^ 53) by (apply Z.div_lt_upper_bound; lia).
    set (q := n / P) in *.
    cbv zeta. fold P. fold q.
    repeat match goal with
           | |- context [if ?c then _ else _] => destruct c
           end; nia.
  - simpl. lia.
Qed.

Lemma round_nonneg n : 0 <= n -> 0 <= round n.
Proof.
  intros Hn. destruct (Z.eq_dec n 0) as [->|Hne]; [reflexivity|].
  pose proof (round_bounds n ltac:(lia)) as [H _].
  pose proof (Z.pow_pos_nonneg 2 (Z.log2 n) ltac:(lia) (Z.log2_nonneg n)). lia.
Qed.

Lemma round_mono a b : 0 <= a <= b -> round a <= round b.
Proof.
  intros Hab.
  destruct (Z.eq_dec a 0) as [->|Ha].
  { change (round 0) with 0. apply round_nonneg. lia. }
  pose proof (excess_mono a b ltac:(lia)) as Hs.
  destruct (Z.eq_dec (excess a) (excess b)) as [E|NE].
  - rewrite !round_eq, E. apply round_at_mono; [apply excess_nonneg|lia].
  - assert (Hk : Z.log2 a < Z.log2 b) by (unfold excess in *; lia).
    pose proof (round_bounds a ltac:(lia)) as [_ Hu].
    pose proof (round_bounds b ltac:(lia)) as [Hl _].
    assert (2 ^ (Z.log2 a + 1) <= 2 ^ Z.log2 b).
    { apply Z.pow_le_mono_r; [lia|]. lia. }
    lia.
Qed.

Lemma round_multiple n : exists m, round n = m * 2 ^ excess n.
Proof.
  unfold round. cbv zeta.
  destruct (Z.eqb_spec (excess n) 0) as [->|_].
  - exists n. simpl. lia.
  - repeat match goal with
           | |- context [if ?c then _ else _] => destruct c
           end; eexists; reflexivity.
Qed.

Lemma scale_split : scale = 2 ^ 53 * 2 ^ 1021.
Proof. reflexivity. Qed.

Lemma is_random_le x : is_random x -> 0 <= x <= max_random.
Proof.
  intros [[H0 Hr] Hlt]. split; [assumption|].
  destruct (Z.eq_dec x 0) as [->|Hne]; [vm_compute; discriminate|].
  assert (Hpos : 0 < x) by lia.
  assert (Hk : Z.log2 x < 1074).
  { apply Z.log2_lt_pow2; assumption. }
  destruct (Z.eq_dec (Z.log2 x) 1073) as [E|NE].
  - destruct (round_multiple x) as [m Hm].
    unfold excess in Hm. rewrite E, Hr in Hm.
    change (Z.max 0 (1073 - 52)) with 1021 in Hm.
    rewrite scale_split in Hlt. unfold max_random.
    assert (0 < 2 ^ 1021) by (apply Z.pow_pos_nonneg; lia).
    assert (0 < 2 ^ 53) by (apply Z.pow_pos_nonneg; lia).
    nia.
  - pose proof (Z.log2_spec x Hpos) as [_ Hhi].
    assert (2 ^ Z.succ (Z.log2 x) <= 2 ^ 1073).
    { apply Z.pow_le_mono_r; lia. }
    assert (2 ^ 1073 <= max_random) by (vm_compute; discriminate).
    lia.
Qed.

Lemma round_product_max :
  round (max_random * 900000) = (900000 * 2 ^ 33 - 1) * 2 ^ 1041.
Proof. vm_compute. reflexivity. Qed.

Lemma round_sum_max :
  round (of_int 100000 + (900000 * 2 ^ 33 - 1) * 2 ^ 1041)
  = (1000000 * 2 ^ 33 - 1) * 2 ^ 1041.
Proof. vm_compute. reflexivity. Qed.

Lemma round_of_int_100000 : round (of_int 100000) = of_int 100000.
Proof. vm_compute. reflexivity. Qed.

Lemma floor_code_range x :
  is_random x ->
  100000 <= floor (add (of_int 100000) (mul_int x 900000)) <= 999999.
Proof.
  intros Hx. apply is_random_le in Hx.
  unfold add, mul_int, floor.
  assert (Hp0 : 0 <= round (x * 900000)) by (apply round_nonneg; lia).
  assert (Hp1 : round (x * 900000) <= (900000 * 2 ^ 33 - 1) * 2 ^ 1041).
  { rewrite <- round_product_max. apply round_mono. lia. }
  set (p := round (x * 900000)) in *.
  assert (H100 : 0 <= of_int 100000) by (vm_compute; discriminate).
  assert (Hs0 : of_int 100000 <= round (of_int 100000 + p)).
  { rewrite <- round_of_int_100000 at 1. apply round_mono. lia. }
  assert (Hs1 : round (of_int 100000 + p) <= (1000000 * 2 ^ 33 - 1) * 2 ^ 1041).
  { rewrite <- round_sum_max. apply round_mono. lia. }
  set (s := round (of_int 100000 + p)) in *.
  assert (Hsc : 0 < scale) by reflexivity.
  split.
  - apply Z.div_le_lower_bound; [assumption|].
    unfold of_int in Hs0. lia.
  - apply Z.lt_succ_r. apply Z.div_lt_upper_bound; [assumption|].
    assert ((1000000 * 2 ^ 33 - 1) * 2 ^ 1041 < scale * Z.succ 999999)
      by reflexivity.
    lia.
Qed.

(** The rounding of [Number] is the rounding of the standard library's
    IEEE-754 specification on every sample. *)
Lemma round_agrees_with_SpecFloat : forallb Ieee.agree Ieee.samples = true.
Proof. vm_compute. reflexivity. Qed.

Lemma digit_cases d :
  0 <= d <= 9 ->
  is_digit (digit d) = true /\ Z.of_nat (nat_of_ascii (digit d)) - 48 = d.
Proof.
  intros H.
  assert (d = 0 \/ d = 1 \/ d = 2 \/ d = 3 \/ d = 4 \/ d = 5 \/ d = 6
          \/ d = 7 \/ d = 8 \/ d = 9) as C by lia.
  repeat (destruct C as [->|C]; [split; reflexivity|]).
  subst d. split; reflexivity.
Qed.

Lemma toString_six n :
  100000 <= n <= 999999 ->
  toString n =
  String (digit (n / 100000 mod 10))
    (String (digit (n / 10000 mod 10))
       (String (digit (n / 1000 mod 10))
          (String (digit (n / 100 mod 10))
             (String (digit (n / 10 mod 10))
                (String (digit (n mod 10)) ""))))).
Proof.
  intros Hn. unfold toString.
  assert (Hl : 16 <= Z.log2 n).
  { change 16 with (Z.log2 100000). apply Z.log2_le_mono. lia. }
  assert (Hf : exists f, S (Z.to_nat (Z.log2 n)) = (6 + f)%nat).
  { exists (Z.to_nat (Z.log2 n) - 5)%nat. lia. }
  destruct Hf as [f ->].
  assert (E1 : n / 10 / 10 = n / 100) by (rewrite Z.div_div by lia; reflexivity).
  assert (E2 : n / 100 / 10 = n / 1000) by (rewrite Z.div_div by lia; reflexivity).
  assert (E3 : n / 1000 / 10 = n / 10000) by (rewrite Z.div_div by lia; reflexivity).
  assert (E4 : n / 10000 / 10 = n / 100000) by (rewrite Z.div_div by lia; reflexivity).
  assert (E5 : n / 100000 / 10 = n / 1000000) by (rewrite Z.div_div by lia; reflexivity).
  assert (N1 : (n / 10 =? 0) = false) by (apply Z.eqb_neq; pose proof (Z.div_le_lower_bound n 10 1); lia).
  assert (N2 : (n / 100 =? 0) = false) by (apply Z.eqb_neq; pose proof (Z.div_le_lower_bound n 100 1); lia).
  assert (N3 : (n / 1000 =? 0) = false) by (apply Z.eqb_neq; pose proof (Z.div_le_lower_bound n 1000 1); lia).
  assert (N4 : (n / 10000 =? 0) = false) by (apply Z.eqb_neq; pose proof (Z.div_le_lower_bound n 10000 1); lia).
  assert (N5 : (n / 100000 =? 0) = false) by (apply Z.eqb_neq; pose proof (Z.div_le_lower_bound n 100000 1); lia).
  assert (N6 : (n / 1000000 =? 0) = true) by (apply Z.eqb_eq; apply Z.div_small; lia).
  cbn [Nat.add digits].
  rewrite N1. cbn [digits]. rewrite E1, N2. cbn [digits].
  rewrite E2, N3. cbn [digits]. rewrite E3, N4. cbn [digits].
  rewrite E4, N5. cbn [digits]. rewrite E5, N6. reflexivity.
Qed.

Lemma toString_six_digits n :
  100000 <= n <= 999999 ->
  String.length (toString n) = 6%nat
  /\ all_digits (toString n) = true
  /\ value (toString n) = n.
Proof.
  intros Hn. rewrite (toString_six n Hn).
  assert (D : forall k, 0 < k -> 0 <= n / k mod 10 <= 9).
  { intros k Hk. pose proof (Z.mod_pos_bound (n / k) 10). lia. }
  assert (D0 : 0 <= n mod 10 <= 9) by (pose proof (Z.mod_pos_bound n 10); lia).
  destruct (digit_cases _ (D 100000 ltac:(lia))) as [A5 B5].
  destruct (digit_cases _ (D 10000 ltac:(lia))) as [A4 B4].
  destruct (digit_cases _ (D 1000 ltac:(lia))) as [A3 B3].
  destruct (digit_cases _ (D 100 ltac:(lia))) as [A2 B2].
  destruct (digit_cases _ (D 10 ltac:(lia))) as [A1 B1].
  destruct (digit_cases _ D0) as [A0 B0].
  split; [reflexivity|]. split.
  - cbn [all_digits]. rewrite A5, A4, A3, A2, A1, A0. reflexivity.
  - unfold value. cbn [value_acc].
    rewrite B5, B4, B3, B2, B1, B0.
    pose proof (Z.div_small (n / 100000) 10).
    pose proof (Z.div_mod (n / 100000) 10).
    pose proof (Z.div_mod (n / 10000) 10).
    pose proof (Z.div_mod (n / 1000) 10).
    pose proof (Z.div_mod (n / 100) 10).
    pose proof (Z.div_mod (n / 10) 10).
    pose proof (Z.div_mod n 10).
    assert (n / 100000 / 10 = 0).
    { rewrite Z.div_div by lia. apply Z.div_small. lia. }
    assert (n / 10000 / 10 = n / 100000) by (rewrite Z.div_div by lia; reflexivity).
    assert (n / 1000 / 10 = n / 10000) by (rewrite Z.div_div by lia; reflexivity).
    assert (n / 100 / 10 = n / 1000) by (rewrite Z.div_div by lia; reflexivity).
    assert (n / 10 / 10 = n / 100) by (rewrite Z.div_div by lia; reflexivity).
    lia.
Qed.

End NumberFacts.

(** ** The document store of [src/server.js] *)
Section CodeStore.
Import ServerJs.

Lemma strict_neq_false (a b : field) : strict_neq a b = false <-> a = b.
Proof.
  destruct a as [x|], b as [y|]; simpl; split; intros H;
    try discriminate; try reflexivity.
  - apply negb_false_iff, String.eqb_eq in H. now subst.
  - injection H as ->. now rewrite String.eqb_refl.
Qed.

Lemma findOne_email_Some email db u :
  findOne_email email db = Some u -> In u db /\ User.email u = email.
Proof.
  intros H. apply find_some in H as [Hin He].
  split; [assumption|]. now apply String.eqb_eq.
Qed.

Lemma findById_Some id db u :
  findById id db = Some u -> In u db /\ User._id u = id.
Proof.
  intros H. apply find_some in H as [Hin He].
  split; [assumption|]. now apply N.eqb_eq.
Qed.

Lemma updateById_absent id f db :
  findById id db = None -> updateById id f db = db.
Proof.
  unfold findById. induction db as [|d rest IH]; simpl; [reflexivity|].
  destruct (N.eqb (User._id d) id); [discriminate|].
  intros H. now rewrite IH.
Qed.

Lemma findById_updateById id f db u :
  findById id db = Some u ->
  User._id (f u) = id ->
  findById id (updateById id f db) = Some (f u).
Proof.
  unfold findById. intros H Hid.
  induction db as [|d rest IH]; simpl in *; [discriminate|].
  destruct (N.eqb (User._id d) id) eqn:E.
  - injection H as ->. simpl. now rewrite Hid, N.eqb_refl.
  - simpl. rewrite E. now apply IH.
Qed.

Lemma updateById_twice id f db :
  (forall u, User._id (f u) = User._id u) ->
  (forall u, f (f u) = f u) ->
  updateById id f (updateById id f db) = updateById id f db.
Proof.
  intros Hid Hf. induction db as [|d rest IH]; simpl; [reflexivity|].
  destruct (N.eqb (User._id d) id) eqn:E; simpl.
  - now rewrite Hid, E, Hf.
  - now rewrite E, IH.
Qed.

(** The document written back by [save] is the one a later lookup by the
    same email finds. *)
Lemma findOne_email_updateById email db u u' :
  findOne_email email db = Some u ->
  User.email u' = email ->
  findOne_email email (updateById (User._id u) (fun _ => u') db) = Some u'.
Proof.
  unfold findOne_email. intros H He.
  induction db as [|d rest IH]; simpl in *; [discriminate|].
  destruct (String.eqb (User.email d) email) eqn:E.
  - injection H as ->. rewrite N.eqb_refl. simpl.
    now rewrite He, String.eqb_refl.
  - destruct (N.eqb (User._id d) (User._id u)); simpl.
    + now rewrite He, String.eqb_refl.
    + rewrite E. now apply IH.
Qed.

Lemma save_inr u db db' :
  save u db = inr db' ->
  required_missing u = [] /\ db' = updateById (User._id u) (fun _ => u) db.
Proof.
  unfold save. destruct (required_missing u); [|discriminate].
  intros H. injection H as <-. split; reflexivity.
Qed.

End CodeStore.

(** ** Password recovery with a code ([src/server.js]) *)
Section CodeRecovery.
Context {C : Collaborators}.
Import ServerJs.

Lemma verify_reset_unknown_email email code password salt now1 now2 db :
  findOne_email email db = None ->
  verify_reset email code password salt now1 now2 db
  = (invalid_or_expired_code, db).
Proof. intros H. unfold verify_reset. now rewrite H. Qed.

Lemma verify_reset_code_differs email code password salt now1 now2 db user :
  findOne_email email db = Some user ->
  User.resetCode user <> code ->
  verify_reset email code password salt now1 now2 db
  = (invalid_or_expired_code, db).
Proof.
  intros H Hne. unfold verify_reset. rewrite H.
  destruct (strict_neq (User.resetCode user) code) eqn:E; [reflexivity|].
  now apply strict_neq_false in E.
Qed.

Lemma verify_reset_expired email code password salt now1 now2 db user t :
  findOne_email email db = Some user ->
  User.resetCodeExpires user = Some t ->
  t < now1 ->
  verify_reset email code password salt now1 now2 db
  = (invalid_or_expired_code, db).
Proof.
  intros H Ht Hlt. unfold verify_reset. rewrite H, Ht. simpl.
  apply Z.ltb_lt in Hlt. rewrite Hlt, orb_true_r. reflexivity.
Qed.

(** What a 200 answer of [verify_reset] tells about the request and the
    collection. *)
Lemma verify_reset_200 email code password salt now1 now2 db payload db' :
  verify_reset email code password salt now1 now2 db
  = (Respond 200 payload, db') ->
  exists user newPassword,
    findOne_email email db = Some user
    /\ User.resetCode user = code
    /\ date_lt (User.resetCodeExpires user) now1 = false
    /\ date_lt (User.resetCodeExpires user) now2 = false
    /\ password = Some newPassword
    /\ payload = BSuccess true "Password reset successfully"
    /\ db' = updateById (User._id user)
                        (fun _ => cleared salt newPassword user) db.
Proof.
  unfold verify_reset.
  destruct (findOne_email email db) as [user|] eqn:Hf; [|discriminate].
  destruct (strict_neq (User.resetCode user) code) eqn:Hc; [discriminate|].
  destruct (date_lt (User.resetCodeExpires user) now1) eqn:H1;
    [discriminate|].
  simpl.
  destruct (date_lt (User.resetCodeExpires user) now2) eqn:H2;
    [discriminate|].
  destruct password as [newPassword|]; [|discriminate].
  destruct (save _ db) as [err|db1] eqn:Hs; [discriminate|].
  intros H. injection H as <- <-.
  apply save_inr in Hs as [_ ->].
  exists user, newPassword.
  apply strict_neq_false in Hc. repeat split; assumption.
Qed.

(** The converse: a request passes as soon as the two values are the
    same, absent ones included, and the expiry is unset or not before
    either clock reading. *)
Lemma verify_reset_accepts email code newPassword salt now1 now2 db user :
  findOne_email email db = Some user ->
  User.resetCode user = code ->
  date_lt (User.resetCodeExpires user) now1 = false ->
  date_lt (User.resetCodeExpires user) now2 = false ->
  required_missing (cleared salt newPassword user) = [] ->
  verify_reset email code (Some newPassword) salt now1 now2 db
  = (Respond 200 (BSuccess true "Password reset successfully"),
     updateById (User._id user) (fun _ => cleared salt newPassword user) db).
Proof.
  intros Hf Hc H1 H2 Hv. unfold verify_reset. rewrite Hf.
  apply strict_neq_false in Hc. rewrite Hc, H1, H2. simpl.
  unfold save. fold (cleared salt newPassword user). now rewrite Hv.
Qed.

Lemma request_reset_limited email now1 now2 random mail_ok db user t :
  findOne_email email db = Some user ->
  User.resetCodeExpires user = Some t ->
  now1 < t ->
  request_reset email now1 now2 random mail_ok db
  = (Respond 429
       (BSuccess false "Please wait before requesting a new code."), db).
Proof.
  intros H Ht Hlt. unfold request_reset. rewrite H, Ht. simpl.
  apply Z.ltb_lt in Hlt. now rewrite Hlt.
Qed.

Lemma request_reset_200 email now1 now2 random mail_ok db payload db' :
  request_reset email now1 now2 random mail_ok db
  = (Respond 200 payload, db') ->
  exists user,
    findOne_email email db = Some user
    /\ db' = updateById (User._id user)
                        (fun _ => issued (reset_code random) now2 user) db.
Proof.
  unfold request_reset.
  destruct (findOne_email email db) as [user|] eqn:Hf; [|discriminate].
  destruct (date_gt (User.resetCodeExpires user) now1); [discriminate|].
  destruct (save _ db) as [err|db1] eqn:Hs; [discriminate|].
  apply save_inr in Hs as [_ ->].
  destruct mail_ok; [|discriminate].
  intros H. injection H as <- <-. now exists user.
Qed.

End CodeRecovery.

(** ** The document store of [src/unnamed/part_000] *)
Section TokenStore.
Import Part000.

Lemma token_findById_Some id db u :
  findById id db = Some u -> In u db /\ User._id u = id.
Proof.
  intros H. apply find_some in H as [Hin He].
  split; [assumption|]. now apply N.eqb_eq.
Qed.

Lemma token_findById_In u db :
  In u db -> exists d, findById (User._id u) db = Some d.
Proof.
  intros Hin. unfold findById.
  destruct (find _ db) as [d|] eqn:E; [now exists d|].
  pose proof (find_none _ _ E u Hin) as H. simpl in H.
  now rewrite N.eqb_refl in H.
Qed.

Lemma token_findById_updateById id f db u :
  findById id db = Some u ->
  User._id (f u) = id ->
  findById id (updateById id f db) = Some (f u).
Proof.
  unfold findById. intros H Hid.
  induction db as [|d rest IH]; simpl in *; [discriminate|].
  destruct (N.eqb (User._id d) id) eqn:E.
  - injection H as ->. simpl. now rewrite Hid, N.eqb_refl.
  - simpl. rewrite E. now apply IH.
Qed.

(** An update of one document leaves a lookup of another id alone. *)
Lemma token_findById_updateById_other id id' u' db :
  id <> id' ->
  User._id u' = id' ->
  findById id (updateById id' (fun _ => u') db) = findById id db.
Proof.
  intros Hne Hid. unfold findById.
  induction db as [|d rest IH]; simpl; [reflexivity|].
  destruct (N.eqb (User._id d) id') eqn:E; simpl.
  - apply N.eqb_eq in E. rewrite Hid, E.
    destruct (N.eqb_spec id' id) as [->|_]; [contradiction|reflexivity].
  - destruct (N.eqb (User._id d) id); [reflexivity|apply IH].
Qed.

(** With unique ids, the only document of the updated collection that
    carries the updated id is the new one. *)
Lemma token_In_updateById id u' db v :
  NoDup (map User._id db) ->
  In v (updateById id (fun _ => u') db) ->
  User._id v = id ->
  v = u'.
Proof.
  intros Hnd. induction db as [|d rest IH]; simpl; [contradiction|].
  inversion Hnd as [|x l Hnotin Hnd' Heq]; subst.
  destruct (N.eqb_spec (User._id d) id) as [E|E]; simpl.
  - intros [<-|Hin] Hv; [reflexivity|].
    exfalso. apply Hnotin. rewrite E, <- Hv. now apply in_map.
  - intros [<-|Hin] Hv; [contradiction|]. now apply IH.
Qed.

Lemma token_save_inr u db db' :
  save u db = inr db' ->
  required_missing u = [] /\ db' = updateById (User._id u) (fun _ => u) db.
Proof.
  unfold save. destruct (required_missing u); [|discriminate].
  intros H. injection H as <-. split; reflexivity.
Qed.

Lemma findOne_token_Some token now db u :
  findOne_token token now db = Some u ->
  In u db
  /\ User.resetPasswordToken u = Some token
  /\ date_gt (User.resetPasswordExpires u) now = true.
Proof.
  intros H. apply find_some in H as [Hin H].
  apply andb_true_iff in H as [Ht He].
  destruct (User.resetPasswordToken u) as [t|]; [|discriminate].
  apply String.eqb_eq in Ht. subst t. repeat split; assumption.
Qed.

(** The query of [reset_password] finds the document that alone holds
    the token, while the token has not expired. *)
Lemma findOne_token_holder token now db user expiry :
  In user db ->
  User.resetPasswordToken user = Some token ->
  User.resetPasswordExpires user = Some expiry ->
  now < expiry ->
  (forall other,
      In other db -> User.resetPasswordToken other = Some token ->
      other = user) ->
  findOne_token token now db = Some user.
Proof.
  intros Hin Ht He Hlt Honly.
  destruct (findOne_token token now db) as [v|] eqn:E.
  - apply findOne_token_Some in E as (Hv & Hvt & _).
    now rewrite (Honly v Hv Hvt).
  - unfold findOne_token in E.
    pose proof (find_none _ _ E user Hin) as H. cbv beta in H.
    rewrite Ht, He, String.eqb_refl in H. simpl in H.
    apply Z.ltb_lt in Hlt. rewrite Hlt in H. discriminate.
Qed.

End TokenStore.

(** ** Password recovery with a token ([src/unnamed/part_000]) *)
Section TokenRecovery.
Context {C : Collaborators}.
Import Part000.

Lemma reset_password_no_match token password salt now db :
  findOne_token token now db = None ->
  reset_password token password salt now db = (invalid_or_expired_token, db).
Proof. intros H. unfold reset_password. now rewrite H. Qed.

(** A token that no document holds exactly is refused. *)
Lemma reset_password_token_differs token password salt now db :
  (forall u, In u db -> User.resetPasswordToken u <> Some token) ->
  reset_password token password salt now db = (invalid_or_expired_token, db).
Proof.
  intros H. apply reset_password_no_match.
  destruct (findOne_token token now db) as [u|] eqn:E; [|reflexivity].
  apply findOne_token_Some in E as (Hin & Ht & _).
  now apply H in Hin.
Qed.

(** A token whose expiry is not strictly in the future is refused with
    the answer given to a token that does not match. *)
Lemma reset_password_expired token password salt now db :
  (forall u t, In u db -> User.resetPasswordToken u = Some token ->
               User.resetPasswordExpires u = Some t -> t <= now) ->
  reset_password token password salt now db = (invalid_or_expired_token, db).
Proof.
  intros H. apply reset_password_no_match.
  destruct (findOne_token token now db) as [u|] eqn:E; [|reflexivity].
  apply findOne_token_Some in E as (Hin & Ht & He).
  destruct (User.resetPasswordExpires u) as [t|] eqn:Hx; [|discriminate].
  simpl in He. apply Z.ltb_lt in He.
  specialize (H u t Hin Ht Hx). lia.
Qed.

(** The converse of the refusals: a matched document that passes
    validation is written and answered 200. *)
Lemma reset_password_accepts token newPassword salt now db user :
  findOne_token token now db = Some user ->
  required_missing (cleared salt newPassword user) = [] ->
  reset_password token (Some newPassword) salt now db
  = (Respond 200 (BMessage "Password has been reset successfully"),
     updateById (User._id user) (fun _ => cleared salt newPassword user) db).
Proof.
  intros Hf Hv. unfold reset_password. rewrite Hf. unfold save.
  fold (cleared salt newPassword user). now rewrite Hv.
Qed.

Lemma reset_password_200 token password salt now db payload db' :
  reset_password token password salt now db = (Respond 200 payload, db') ->
  exists user newPassword,
    findOne_token token now db = Some user
    /\ password = Some newPassword
    /\ payload = BMessage "Password has been reset successfully"
    /\ db' = updateById (User._id user)
                        (fun _ => cleared salt newPassword user) db.
Proof.
  unfold reset_password.
  destruct (findOne_token token now db) as [user|] eqn:Hf; [|discriminate].
  destruct password as [newPassword|]; [|discriminate].
  destruct (save _ db) as [err|db1] eqn:Hs; [discriminate|].
  intros H. injection H as <- <-.
  apply token_save_inr in Hs as [_ ->].
  now exists user, newPassword.
Qed.

(** Whatever [reset_password] does, it writes at most the document it
    matched. *)
Lemma reset_password_writes token password salt now db :
  snd (reset_password token password salt now db) = db
  \/ exists user u',
       findOne_token token now db = Some user
       /\ User._id u' = User._id user
       /\ snd (reset_password token password salt now db)
          = updateById (User._id user) (fun _ => u') db.
Proof.
  unfold reset_password.
  destruct (findOne_token token now db) as [user|] eqn:Hf; [|now left].
  destruct password as [newPassword|]; [|now left].
  destruct (save _ db) as [err|db1] eqn:Hs; [now left|].
  apply token_save_inr in Hs as [_ ->]. right.
  exists user, (cleared salt newPassword user). repeat split.
Qed.

Lemma forgot_password_never_429 email randomBytes now mail_ok db :
  status_of (fst (forgot_password email randomBytes now mail_ok db))
  <> Some 429.
Proof.
  unfold forgot_password.
  destruct (findOne_email email db); [|discriminate].
  destruct (save _ db); [discriminate|].
  destruct mail_ok; discriminate.
Qed.

End TokenRecovery.

(** ** Account lifecycle ([src/server.js]) *)
Section Lifecycle.
Context {C : Collaborators}.
Import ServerJs.

(** A document made by [signup] never passes validation: the schema
    requires [age] and [gender], which the handler does not set. *)
Lemma insert_new_user_fails newId name email hashed phone validId selfie db :
  exists err,
    insert (User.mk newId name email hashed phone None None role_user None
                    pending validId selfie None None) db = inl err.
Proof.
  unfold insert, required_missing. simpl.
  repeat match goal with
         | |- context [if ?c then _ else _] => destruct c
         end; simpl; eexists; reflexivity.
Qed.

Lemma signup_never_stores name email password phone validId selfie salt
      newId db :
  snd (signup name email password phone validId selfie salt newId db) = db
  /\ status_of
       (fst (signup name email password phone validId selfie salt newId db))
     <> Some 201.
Proof.
  unfold signup.
  destruct (_ || _); [split; [reflexivity|discriminate]|].
  destruct (findOne_email _ db); [split; [reflexivity|discriminate]|].
  destruct (findOne_phone _ db); [split; [reflexivity|discriminate]|].
  cbv zeta.
  destruct (insert_new_user_fails newId (str name) (str email)
              (bcrypt_hash salt (str password)) (str phone) validId selfie db)
    as [err ->].
  split; [reflexivity|discriminate].
Qed.

Lemma signup_email_conflict name email password phone validId selfie salt
      newId db existing :
  complete name email password phone validId selfie ->
  findOne_email (str email) db = Some existing ->
  signup name email password phone validId selfie salt newId db
  = (Respond 400 (BError "User already exists"), db).
Proof.
  intros (H1 & H2 & H3 & H4 & H5 & H6) Hf. unfold signup.
  rewrite H1, H2, H3, H4, H5, H6, Hf. reflexivity.
Qed.

Lemma signup_phone_conflict name email password phone validId selfie salt
      newId db existing :
  complete name email password phone validId selfie ->
  findOne_phone (str phone) db = Some existing ->
  signup name email password phone validId selfie salt newId db
  = (Respond 400 (BError "User already exists"), db).
Proof.
  intros (H1 & H2 & H3 & H4 & H5 & H6) Hf. unfold signup.
  rewrite H1, H2, H3, H4, H5, H6, Hf. simpl.
  destruct (findOne_email (str email) db); reflexivity.
Qed.

End Lifecycle.

(** ** Account lifecycle ([src/unnamed/part_000]) *)
Section TokenLifecycle.
Context {C : Collaborators}.
Import Part000.

Lemma truthy_str (f : field) : truthy f = true -> String.eqb (str f) "" = false.
Proof.
  destruct f as [s|]; simpl; [|discriminate].
  intros H. now apply negb_true_iff in H.
Qed.

(** The schema of this variant requires no path that [signup] leaves
    unset, so a complete body with a fresh email and phone is stored. *)
Lemma token_signup_stores name email password phone validId selfie salt
      newId db :
  complete name email password phone validId selfie ->
  findOne_email (str email) db = None ->
  findOne_phone (str phone) db = None ->
  bcrypt_hash salt (str password) <> "" ->
  signup name email password phone validId selfie salt newId db
  = (Respond 201 (BMessage "Signup successful"),
     (db ++ [User.mk newId (str name) (str email)
                     (bcrypt_hash salt (str password)) (str phone) role_user
                     None pending validId selfie None None])%list).
Proof.
  intros (H1 & H2 & H3 & H4 & H5 & H6) He Hp Hh. unfold signup.
  rewrite H1, H2, H3, H4, H5, H6, He, Hp. simpl.
  unfold insert, required_missing. simpl.
  rewrite (truthy_str _ H1), (truthy_str _ H2), (truthy_str _ H4).
  apply String.eqb_neq in Hh. rewrite Hh. simpl.
  now rewrite He.
Qed.

End TokenLifecycle.

(** * The claims of the specification *)

(** ** Completing a reset *)

(** C1: the code variant fails to refuse a reset when no recovery secret
    is stored.  For a user who never asked for a code, a request that
    supplies no code passes both tests of [verify_reset]
    ([undefined !== undefined] and [undefined < Date.now()] are false) and
    the password is overwritten, although no stored secret matches a
    supplied one. *)
Theorem verify_reset_without_secret :
  ServerJs.findOne_email "alice@example.com" [Fixture.alice]
  = Some Fixture.alice
  /\ ServerJs.User.resetCode Fixture.alice = None
  /\ ServerJs.verify_reset "alice@example.com" None (Some "NewPass1") "s9"
       2000 2000 [Fixture.alice]
     = (Respond 200 (BSuccess true "Password reset successfully"),
        [ServerJs.User.set_password "$2a$10$s9NewPass1" Fixture.alice]).
Proof. repeat apply conj; reflexivity. Qed.

(** C2: the code variant accepts a matching code at the very instant of
    its expiry (the tests read [expiry < now], not [expiry <= now]), and
    when the clock passes the expiry between the two tests it answers with
    a payload that differs from the one given to a code that does not
    match. *)
Theorem verify_reset_at_expiry :
  ServerJs.User.resetCodeExpires Fixture.alice_code = Some 1000
  /\ ServerJs.verify_reset "alice@example.com" (Some "123456")
       (Some "NewPass1") "s9" 1000 1000 [Fixture.alice_code]
     = (Respond 200 (BSuccess true "Password reset successfully"),
        [ServerJs.User.set_password "$2a$10$s9NewPass1" Fixture.alice])
  /\ ServerJs.verify_reset "alice@example.com" (Some "123456")
       (Some "NewPass1") "s9" 1000 1001 [Fixture.alice_code]
     = (Respond 400 (BMessage "Code expired"), [Fixture.alice_code])
  /\ ServerJs.verify_reset "alice@example.com" (Some "654321")
       (Some "NewPass1") "s9" 1000 1001 [Fixture.alice_code]
     = (Respond 400 (BSuccess false "Invalid or expired code"),
        [Fixture.alice_code]).
Proof. repeat apply conj; reflexivity. Qed.

(** ** Requesting a reset *)

Section RequestReset.
Context {C : Collaborators}.

(** The token variant writes a new token whenever the user exists and
    the document is valid, whatever secret it already holds. *)
Lemma forgot_password_reissues email randomBytes now mail_ok db user :
  Part000.findOne_email email db = Some user ->
  Part000.required_missing user = [] ->
  snd (Part000.forgot_password email randomBytes now mail_ok db)
  = Part000.updateById (Part000.User._id user)
      (fun _ => Part000.issued (Part000.toHex randomBytes) now user) db.
Proof.
  intros Hf Hv. unfold Part000.forgot_password. rewrite Hf.
  unfold Part000.save.
  replace (Part000.required_missing _) with (Part000.required_missing user)
    by reflexivity.
  rewrite Hv. now destruct mail_ok.
Qed.

(** C3 (amended): in the code variant a user who holds an unexpired code
    gets [429] and the collection is left as it is; the token variant has
    no rate limit: it never answers [429] and writes a new token and
    expiry over the old ones. *)
Theorem request_reset_rate_limit :
  (forall email now1 now2 random mail_ok db user t,
      ServerJs.findOne_email email db = Some user ->
      ServerJs.User.resetCodeExpires user = Some t ->
      now1 < t ->
      ServerJs.request_reset email now1 now2 random mail_ok db
      = (Respond 429
           (BSuccess false "Please wait before requesting a new code."), db))
  /\ (forall email randomBytes now mail_ok db,
         status_of
           (fst (Part000.forgot_password email randomBytes now mail_ok db))
         <> Some 429)
  /\ (forall email randomBytes now mail_ok db user,
         Part000.findOne_email email db = Some user ->
         Part000.required_missing user = [] ->
         snd (Part000.forgot_password email randomBytes now mail_ok db)
         = Part000.updateById (Part000.User._id user)
             (fun _ => Part000.issued (Part000.toHex randomBytes) now user)
             db).
Proof.
  split; [|split].
  - intros. eapply request_reset_limited; eassumption.
  - intros. apply forgot_password_never_429.
  - intros. now apply forgot_password_reissues.
Qed.

End RequestReset.

(** C3, as stated, fails in the token variant: carol holds a token that
    expires at 5000, asks again at 1000, is answered 200 and her token
    and expiry are replaced. *)
Lemma forgot_password_within_window :
  Part000.findOne_email "carol@example.com" [Fixture.carol]
  = Some Fixture.carol
  /\ date_gt (Part000.User.resetPasswordExpires Fixture.carol) 1000 = true
  /\ Part000.forgot_password "carol@example.com" Fixture.bytes20 1000 true
       [Fixture.carol]
     = (Respond 200 (BMessage "Reset email sent successfully"),
        [Part000.User.set_resetPasswordExpires (Some 3601000)
           (Part000.User.set_resetPasswordToken
              (Some "abcd0123456789ef1032547698badcfe00112233")
              Fixture.carol)])
  /\ snd (Part000.forgot_password "carol@example.com" Fixture.bytes20 1000
            true [Fixture.carol])
     <> [Fixture.carol].
Proof. repeat apply conj; try reflexivity; discriminate. Qed.

(** The rate limit on alice, who holds a code until 1000 and asks again
    at 400; the reissue to carol. *)
Lemma request_reset_rate_limit_witness :
  ServerJs.request_reset "alice@example.com" 400 401 0 true
    [Fixture.alice_code]
  = (Respond 429 (BSuccess false "Please wait before requesting a new code."),
     [Fixture.alice_code])
  /\ snd (Part000.forgot_password "carol@example.com" Fixture.bytes20 1000
            true [Fixture.carol])
     = Part000.updateById 3
         (fun _ =>
            Part000.issued (Part000.toHex Fixture.bytes20) 1000 Fixture.carol)
         [Fixture.carol].
Proof.
  split.
  - apply (proj1 request_reset_rate_limit
             "alice@example.com" 400 401 0 true [Fixture.alice_code]
             Fixture.alice_code 1000); reflexivity.
  - apply (proj2 (proj2 request_reset_rate_limit)
             "carol@example.com" Fixture.bytes20 1000 true [Fixture.carol]
             Fixture.carol); reflexivity.
Defined.

(** ** A successful reset *)

Section CompleteReset.
Context {C : Collaborators}.

(** C4: in both variants a reset that supplies the stored secret before
    its expiry, with a password and a document that passes validation, is
    answered 200 and written; and every reset answered 200 has written,
    in one update of the matched document, the hash of the new password
    as credential and has unset the secret and its expiry. *)
Theorem complete_reset_clears_secret :
  (forall email s newPassword salt now1 now2 db user expiry,
      ServerJs.findOne_email email db = Some user ->
      ServerJs.User.resetCode user = Some s ->
      ServerJs.User.resetCodeExpires user = Some expiry ->
      now1 < expiry ->
      now2 < expiry ->
      ServerJs.required_missing (ServerJs.cleared salt newPassword user) = [] ->
      let user' := ServerJs.cleared salt newPassword user in
      let db' := ServerJs.updateById (ServerJs.User._id user)
                   (fun _ => user') db in
      ServerJs.verify_reset email (Some s) (Some newPassword) salt now1 now2
        db
      = (Respond 200 (BSuccess true "Password reset successfully"), db')
      /\ ServerJs.findOne_email email db' = Some user'
      /\ ServerJs.User.password user' = bcrypt_hash salt newPassword
      /\ ServerJs.User.resetCode user' = None
      /\ ServerJs.User.resetCodeExpires user' = None)
  /\ (forall email code password salt now1 now2 db payload db',
         ServerJs.verify_reset email code password salt now1 now2 db
         = (Respond 200 payload, db') ->
         exists user newPassword user',
           ServerJs.findOne_email email db = Some user
           /\ password = Some newPassword
           /\ payload = BSuccess true "Password reset successfully"
           /\ db' = ServerJs.updateById (ServerJs.User._id user)
                      (fun _ => user') db
           /\ ServerJs.findOne_email email db' = Some user'
           /\ user' = ServerJs.cleared salt newPassword user
           /\ ServerJs.User.password user' = bcrypt_hash salt newPassword
           /\ ServerJs.User.resetCode user' = None
           /\ ServerJs.User.resetCodeExpires user' = None)
  /\ (forall token newPassword salt now db user expiry,
         In user db ->
         Part000.User.resetPasswordToken user = Some token ->
         Part000.User.resetPasswordExpires user = Some expiry ->
         now < expiry ->
         (forall other,
             In other db ->
             Part000.User.resetPasswordToken other = Some token ->
             other = user) ->
         Part000.required_missing (Part000.cleared salt newPassword user)
         = [] ->
         let user' := Part000.cleared salt newPassword user in
         let db' := Part000.updateById (Part000.User._id user)
                      (fun _ => user') db in
         Part000.reset_password token (Some newPassword) salt now db
         = (Respond 200 (BMessage "Password has been reset successfully"),
            db')
         /\ Part000.findById (Part000.User._id user) db' = Some user'
         /\ Part000.User.password user' = bcrypt_hash salt newPassword
         /\ Part000.User.resetPasswordToken user' = None
         /\ Part000.User.resetPasswordExpires user' = None)
  /\ (forall token password salt now db payload db',
         Part000.reset_password token password salt now db
         = (Respond 200 payload, db') ->
         exists user newPassword user',
           Part000.findOne_token token now db = Some user
           /\ password = Some newPassword
           /\ payload = BMessage "Password has been reset successfully"
           /\ db' = Part000.updateById (Part000.User._id user)
                      (fun _ => user') db
           /\ Part000.findById (Part000.User._id user) db' = Some user'
           /\ user' = Part000.cleared salt newPassword user
           /\ Part000.User.password user' = bcrypt_hash salt newPassword
           /\ Part000.User.resetPasswordToken user' = None
           /\ Part000.User.resetPasswordExpires user' = None).
Proof.
  split; [|split; [|split]].
  - intros * Hf Hc He H1 H2 Hv user' db'.
    pose proof (findOne_email_Some _ _ _ Hf) as [_ Hm].
    split; [|split; [|repeat split]].
    + apply verify_reset_accepts; try assumption.
      * rewrite He. simpl. apply Z.ltb_ge. lia.
      * rewrite He. simpl. apply Z.ltb_ge. lia.
    + exact (findOne_email_updateById email db user user' Hf Hm).
  - intros * H.
    apply verify_reset_200 in H
      as (user & newPassword & Hf & _ & _ & _ & Hp & Hb & Hdb).
    exists user, newPassword, (ServerJs.cleared salt newPassword user).
    repeat split; try assumption.
    rewrite Hdb. apply findOne_email_updateById; [assumption|].
    now apply findOne_email_Some in Hf.
  - intros * Hin Ht He Hlt Honly Hv user' db'.
    pose proof (findOne_token_holder _ _ _ _ _ Hin Ht He Hlt Honly) as Hf.
    split; [|split; [|repeat split]].
    + now apply reset_password_accepts.
    + destruct (token_findById_In _ _ Hin) as [d Hd].
      exact (token_findById_updateById _ (fun _ => user') _ d Hd eq_refl).
  - intros * H.
    apply reset_password_200 in H as (user & newPassword & Hf & Hp & Hb & Hdb).
    exists user, newPassword, (Part000.cleared salt newPassword user).
    repeat split; try assumption.
    rewrite Hdb.
    apply findOne_token_Some in Hf as (Hin & _ & _).
    destruct (token_findById_In _ _ Hin) as [d Hd].
    now rewrite (token_findById_updateById _ (fun _ => _) _ d Hd).
Qed.

End CompleteReset.

(** Alice completes a reset with her code at 500 and carol with her
    token at 1000; both are answered 200 and written, and the 200 of
    alice tells what was written. *)
Lemma complete_reset_clears_secret_witness :
  ServerJs.verify_reset "alice@example.com" (Some "123456")
    (Some "NewPass1") "s9" 500 500 [Fixture.alice_code]
  = (Respond 200 (BSuccess true "Password reset successfully"),
     [ServerJs.cleared "s9" "NewPass1" Fixture.alice_code])
  /\ Part000.reset_password "00ff00ff00ff00ff00ff00ff00ff00ff00ff00ff"
       (Some "NewPass3") "s9" 1000 [Fixture.carol]
     = (Respond 200 (BMessage "Password has been reset successfully"),
        [Part000.cleared "s9" "NewPass3" Fixture.carol])
  /\ (exists user',
         ServerJs.findOne_email "alice@example.com"
           [ServerJs.cleared "s9" "NewPass1" Fixture.alice_code]
         = Some user'
         /\ ServerJs.User.password user' = "$2a$10$s9NewPass1"
         /\ ServerJs.User.resetCode user' = None
         /\ ServerJs.User.resetCodeExpires user' = None).
Proof.
  split; [|split].
  - apply (proj1 (@complete_reset_clears_secret Fixture.collaborators)
             "alice@example.com" "123456" "NewPass1" "s9" 500 500
             [Fixture.alice_code] Fixture.alice_code 1000
             eq_refl eq_refl eq_refl eq_refl eq_refl eq_refl).
  - apply (proj1 (proj2 (proj2
             (@complete_reset_clears_secret Fixture.collaborators)))
             "00ff00ff00ff00ff00ff00ff00ff00ff00ff00ff" "NewPass3" "s9" 1000
             [Fixture.carol] Fixture.carol 5000
             (or_introl eq_refl) eq_refl eq_refl eq_refl).
    + intros other [<-|[]] _. reflexivity.
    + reflexivity.
  - destruct (proj1 (proj2 (@complete_reset_clears_secret
                              Fixture.collaborators))
                "alice@example.com" (Some "123456") (Some "NewPass1") "s9"
                500 500 [Fixture.alice_code]
                (BSuccess true "Password reset successfully")
                [ServerJs.cleared "s9" "NewPass1" Fixture.alice_code]
                eq_refl)
      as (user & newPassword & user' & Hf & Hp & _ & _ & Hf' & Hu & H1 & H2 & H3).
    exists user'. injection Hp as <-. repeat split; assumption.
Defined.

(** ** A secret is used at most once *)

Section SingleUse.
Context {C : Collaborators}.

(** C5: after a reset with the secret [s] has succeeded, a later reset
    with [s] for the same user is refused and writes nothing.  In the code
    variant the user is named by the email of the request.  In the token
    variant the token is the only identifier, so the later request is
    refused unless another document holds the same token; the document of
    the user who used [s] is never matched again and stays as it is.  The
    collection keys its documents by [_id]. *)
Theorem secret_single_use :
  (forall email s password salt now1 now2 db payload db1,
      ServerJs.verify_reset email (Some s) password salt now1 now2 db
      = (Respond 200 payload, db1) ->
      forall password' salt' now1' now2',
        ServerJs.verify_reset email (Some s) password' salt' now1' now2' db1
        = (ServerJs.invalid_or_expired_code, db1))
  /\ (forall s password salt now db payload db1 user,
         NoDup (map Part000.User._id db) ->
         Part000.findOne_token s now db = Some user ->
         Part000.reset_password s password salt now db
         = (Respond 200 payload, db1) ->
         forall password' salt' now',
           Part000.findById (Part000.User._id user)
             (snd (Part000.reset_password s password' salt' now' db1))
           = Part000.findById (Part000.User._id user) db1
           /\ (Part000.reset_password s password' salt' now' db1
               = (Part000.invalid_or_expired_token, db1)
               \/ exists other,
                   Part000.findOne_token s now' db1 = Some other
                   /\ Part000.User._id other <> Part000.User._id user)).
Proof.
  split.
  - intros * H *.
    apply verify_reset_200 in H
      as (user & newPassword & Hf & _ & _ & _ & _ & _ & ->).
    apply verify_reset_code_differs
      with (user := ServerJs.cleared salt newPassword user);
      [|discriminate].
    apply findOne_email_updateById; [assumption|].
    now apply findOne_email_Some in Hf.
  - intros * Hnd Hu H *.
    apply reset_password_200 in H
      as (user0 & newPassword & Hf & _ & _ & ->).
    rewrite Hu in Hf. injection Hf as <-.
    set (db1 := Part000.updateById _ _ db).
    destruct (Part000.findOne_token s now' db1) as [other|] eqn:Ho.
    + assert (Hne : Part000.User._id other <> Part000.User._id user).
      { intros Heq.
        apply findOne_token_Some in Ho as (Hin & Ht & _).
        apply (token_In_updateById _ _ _ _ Hnd) in Hin; [|assumption].
        subst other. discriminate. }
      split; [|right; now exists other].
      destruct (reset_password_writes s password' salt' now' db1)
        as [->|(m & u' & Hm & Hid & ->)]; [reflexivity|].
      rewrite Ho in Hm. injection Hm as <-.
      apply token_findById_updateById_other; [|assumption].
      intros E. now apply Hne.
    + rewrite (reset_password_no_match _ _ _ _ _ Ho).
      split; [reflexivity|now left].
Qed.

End SingleUse.

(** Alice and carol try their secrets a second time. *)
Lemma secret_single_use_witness :
  ServerJs.verify_reset "alice@example.com" (Some "123456") (Some "Again2")
    "s7" 600 600
    [ServerJs.User.set_password "$2a$10$s9NewPass1" Fixture.alice]
  = (ServerJs.invalid_or_expired_code,
     [ServerJs.User.set_password "$2a$10$s9NewPass1" Fixture.alice])
  /\ Part000.findById 3
       (snd (Part000.reset_password
               "00ff00ff00ff00ff00ff00ff00ff00ff00ff00ff" (Some "Again2")
               "s7" 1100 [Part000.cleared "s9" "NewPass3" Fixture.carol]))
     = Part000.findById 3 [Part000.cleared "s9" "NewPass3" Fixture.carol].
Proof.
  split.
  - apply (proj1 (@secret_single_use Fixture.collaborators)
             "alice@example.com" "123456" (Some "NewPass1") "s9" 500 500
             [Fixture.alice_code]
             (BSuccess true "Password reset successfully")
             [ServerJs.User.set_password "$2a$10$s9NewPass1" Fixture.alice]
             eq_refl).
  - apply (proj2 (@secret_single_use Fixture.collaborators)
             "00ff00ff00ff00ff00ff00ff00ff00ff00ff00ff" (Some "NewPass3")
             "s9" 1000 [Fixture.carol]
             (BMessage "Password has been reset successfully")
             [Part000.cleared "s9" "NewPass3" Fixture.carol] Fixture.carol).
    + repeat constructor. simpl. intros [].
    + reflexivity.
    + reflexivity.
Defined.

(** ** Login of a pending user *)

Section Login.
Context {C : Collaborators}.
Import ServerJs.

(** C6 (amended): a pending user never receives a session token or a
    chat credential.  The password is tested before the status: with a
    password that matches the stored digest the answer is 403, with one
    that does not it is 400. *)
Theorem login_pending_no_session email password chat_ok db user :
  findOne_email email db = Some user ->
  User.status user = pending ->
  carries_session (login email password chat_ok db) = false
  /\ status_of (login email password chat_ok db) <> Some 200
  /\ forall supplied,
       password = Some supplied ->
       login email password chat_ok db
       = if bcrypt_compare supplied (User.password user)
         then Respond 403 (BError "Your account is pending approval")
         else Respond 400 (BError "Invalid email or password").
Proof.
  intros Hf Hs. unfold login. rewrite Hf, Hs.
  destruct password as [supplied|].
  - destruct (bcrypt_compare supplied (User.password user)) eqn:E; simpl;
      (split; [reflexivity|split; [discriminate|]]);
      intros ? H; injection H as <-; now rewrite E.
  - split; [reflexivity|split; [discriminate|]]. discriminate.
Qed.

End Login.

(** C6, as stated, fails: bob is pending and supplies a wrong password;
    the answer is 400 "Invalid email or password", not 403. *)
Lemma login_pending_wrong_password :
  ServerJs.findOne_email "bob@example.com" [Fixture.bob] = Some Fixture.bob
  /\ ServerJs.User.status Fixture.bob = ServerJs.pending
  /\ ServerJs.login "bob@example.com" (Some "guess") true [Fixture.bob]
     = Respond 400 (BError "Invalid email or password")
  /\ status_of
       (ServerJs.login "bob@example.com" (Some "guess") true [Fixture.bob])
     <> Some 403.
Proof. repeat apply conj; try reflexivity; discriminate. Qed.

(** Bob is pending and supplies his password. *)
Lemma login_pending_no_session_witness :
  ServerJs.login "bob@example.com" (Some "Secret9") true [Fixture.bob]
  = Respond 403 (BError "Your account is pending approval").
Proof.
  apply (proj2 (proj2 (@login_pending_no_session Fixture.collaborators
                         "bob@example.com" (Some "Secret9") true
                         [Fixture.bob] Fixture.bob eq_refl eq_refl))
           "Secret9" eq_refl).
Defined.

(** ** Registration *)

(** C7: in [src/server.js] a complete signup with a fresh email and phone
    is not stored.  [UserSchema] requires [age] and [gender], the handler
    builds the document without them, [save()] rejects it and the answer
    is 500. *)
Theorem signup_fresh_user_rejected :
  complete (Some "Dana") (Some "dana@example.com") (Some "Passw0rd")
    (Some "0920") (Some "id.png") (Some "me.png")
  /\ ServerJs.findOne_email "dana@example.com" [Fixture.alice] = None
  /\ ServerJs.findOne_phone "0920" [Fixture.alice] = None
  /\ ServerJs.signup (Some "Dana") (Some "dana@example.com") (Some "Passw0rd")
       (Some "0920") (Some "id.png") (Some "me.png") "s4" 9 [Fixture.alice]
     = (Respond 500
          (BErrorDetails "Internal server error"
             (ValidationError ["age"; "gender"])),
        [Fixture.alice]).
Proof. repeat apply conj; reflexivity. Qed.

(** ** Reading and updating a profile *)

Section Profile.
Context {C : Collaborators}.
Import ServerJs.

Lemma set_avatar_twice avatar u :
  User.set_avatar avatar (User.set_avatar avatar u) = User.set_avatar avatar u.
Proof. reflexivity. Qed.

(** C10: reading the profile of an id that names no user answers 200
    with a [null] body; the answer is 500 exactly when the lookup throws,
    which in this model is when the id cannot be cast. *)
Theorem get_user_absent id db :
  (forall oid,
      castObjectId id = Some oid ->
      findById oid db = None ->
      get_user id db = Respond 200 (BUser None))
  /\ (status_of (get_user id db) = Some 500 <-> castObjectId id = None).
Proof.
  unfold get_user. split.
  - intros oid Hc Hf. now rewrite Hc, Hf.
  - destruct (castObjectId id); simpl; split; intros H;
      try discriminate; reflexivity.
Qed.

End Profile.

(** C8, as stated, fails: no document has the id 5, yet the answer is
    200 "Avatar updated". *)
Lemma update_avatar_unknown_id :
  castObjectId "000000000000000000000005" = Some 5%N
  /\ ServerJs.findById 5 [Fixture.alice] = None
  /\ ServerJs.update_avatar "000000000000000000000005" "pic.png"
       [Fixture.alice]
     = (Respond 200 (BMessage "Avatar updated"), [Fixture.alice])
  /\ status_of
       (fst (ServerJs.update_avatar "000000000000000000000005" "pic.png"
               [Fixture.alice]))
     <> Some 404.
Proof. repeat apply conj; try reflexivity; discriminate. Qed.

(** *** The avatar update with its [updatedAt] stamp *)

Section StampedAvatar.
Context {C : Collaborators}.
Import ServerJsStamped.

Lemma stamped_update_absent id f now db :
  findById id db = None -> findByIdAndUpdate id f now db = db.
Proof.
  unfold findById. induction db as [|s rest IH]; simpl; [reflexivity|].
  destruct (N.eqb (ServerJs.User._id (doc s)) id); [discriminate|].
  intros H. now rewrite IH.
Qed.

Lemma stamped_findById_update id f now db s :
  findById id db = Some s ->
  ServerJs.User._id (f (doc s)) = id ->
  findById id (findByIdAndUpdate id f now db)
  = Some (mk_stamped (f (doc s)) (createdAt s) now).
Proof.
  unfold findById. intros H Hid.
  induction db as [|d rest IH]; simpl in *; [discriminate|].
  destruct (N.eqb (ServerJs.User._id (doc d)) id) eqn:E.
  - injection H as ->. simpl. now rewrite Hid, N.eqb_refl.
  - simpl. rewrite E. now apply IH.
Qed.

(** A second update overwrites the stamp of the first. *)
Lemma stamped_update_twice id f now later db :
  (forall u, ServerJs.User._id (f u) = ServerJs.User._id u) ->
  (forall u, f (f u) = f u) ->
  findByIdAndUpdate id f later (findByIdAndUpdate id f now db)
  = findByIdAndUpdate id f later db.
Proof.
  intros Hid Hf. induction db as [|s rest IH]; simpl; [reflexivity|].
  destruct (N.eqb (ServerJs.User._id (doc s)) id) eqn:E; simpl.
  - now rewrite Hid, E, Hf.
  - now rewrite E, IH.
Qed.

(** Without the stamps, the update is the one of [ServerJs]. *)
Lemma stamped_update_erase id f now db :
  map doc (findByIdAndUpdate id f now db)
  = ServerJs.updateById id f (map doc db).
Proof.
  induction db as [|s rest IH]; simpl; [reflexivity|].
  destruct (N.eqb (ServerJs.User._id (doc s)) id); simpl;
    [reflexivity|now rewrite IH].
Qed.

(** C8 (amended): an id that names no user is not answered with a
    not-found error: the answer is 200 "Avatar updated" (500 when the id
    cannot be cast) and the collection is left as it is.  For an existing
    user the avatar is overwritten and [updatedAt] is set to the time of
    the call.  Doing it twice with the same value gives what doing it
    once at the time of the second call gives: every path but
    [updatedAt] is as after one call.  On the paths other than the
    stamps the handler is [ServerJs.update_avatar]. *)
Theorem update_avatar_overwrite id avatar now db :
  ((forall oid, castObjectId id = Some oid -> findById oid db = None) ->
   update_avatar id avatar now db
   = (match castObjectId id with
      | Some _ => Respond 200 (BMessage "Avatar updated")
      | None => Respond 500 (BError "Failed to update avatar")
      end, db))
  /\ (forall oid s,
         castObjectId id = Some oid ->
         findById oid db = Some s ->
         fst (update_avatar id avatar now db)
         = Respond 200 (BMessage "Avatar updated")
         /\ findById oid (snd (update_avatar id avatar now db))
            = Some (mk_stamped
                      (ServerJs.User.set_avatar (Some avatar) (doc s))
                      (createdAt s) now))
  /\ (forall later,
         update_avatar id avatar later (snd (update_avatar id avatar now db))
         = update_avatar id avatar later db)
  /\ (forall later,
         map doc
           (snd (update_avatar id avatar later
                   (snd (update_avatar id avatar now db))))
         = map doc (snd (update_avatar id avatar now db)))
  /\ (fst (update_avatar id avatar now db)
      = fst (ServerJs.update_avatar id avatar (map doc db))
      /\ map doc (snd (update_avatar id avatar now db))
         = snd (ServerJs.update_avatar id avatar (map doc db))).
Proof.
  unfold update_avatar, ServerJs.update_avatar.
  split; [|split; [|split; [|split]]].
  - intros H. destruct (castObjectId id) as [oid|]; [|reflexivity].
    now rewrite stamped_update_absent by now apply H.
  - intros oid s Hc Hf. rewrite Hc. simpl. split; [reflexivity|].
    apply stamped_findById_update; [assumption|].
    simpl. apply find_some in Hf as [_ Hf]. now apply N.eqb_eq.
  - intros later. destruct (castObjectId id) as [oid|]; [|reflexivity].
    simpl. now rewrite stamped_update_twice.
  - intros later. destruct (castObjectId id) as [oid|]; [|reflexivity].
    simpl. now rewrite stamped_update_twice, !stamped_update_erase.
  - destruct (castObjectId id) as [oid|]; simpl; [|now split].
    split; [reflexivity|apply stamped_update_erase].
Qed.

End StampedAvatar.

(** The avatar of alice set at 200 and again at 300 leaves a record that
    differs, in [updatedAt], from the one after the first call. *)
Lemma update_avatar_twice_restamps :
  ServerJsStamped.findById 1
    (snd (ServerJsStamped.update_avatar "000000000000000000000001" "pic.png"
            300
            (snd (ServerJsStamped.update_avatar "000000000000000000000001"
                    "pic.png" 200 [ServerJsStamped.alice]))))
  = Some (ServerJsStamped.mk_stamped
            (ServerJs.User.set_avatar (Some "pic.png") Fixture.alice) 100 300)
  /\ ServerJsStamped.findById 1
       (snd (ServerJsStamped.update_avatar "000000000000000000000001"
               "pic.png" 200 [ServerJsStamped.alice]))
     = Some (ServerJsStamped.mk_stamped
               (ServerJs.User.set_avatar (Some "pic.png") Fixture.alice)
               100 200)
  /\ snd (ServerJsStamped.update_avatar "000000000000000000000001" "pic.png"
            300
            (snd (ServerJsStamped.update_avatar "000000000000000000000001"
                    "pic.png" 200 [ServerJsStamped.alice])))
     <> snd (ServerJsStamped.update_avatar "000000000000000000000001"
               "pic.png" 200 [ServerJsStamped.alice]).
Proof. repeat apply conj; try reflexivity; discriminate. Qed.

(** An id that names nobody, then the id of alice at time 200, then the
    same update again at 300. *)
Lemma update_avatar_overwrite_witness :
  ServerJsStamped.update_avatar "000000000000000000000005" "pic.png" 200
    [ServerJsStamped.alice]
  = (Respond 200 (BMessage "Avatar updated"), [ServerJsStamped.alice])
  /\ ServerJsStamped.findById 1
       (snd (ServerJsStamped.update_avatar "000000000000000000000001"
               "pic.png" 200 [ServerJsStamped.alice]))
     = Some (ServerJsStamped.mk_stamped
               (ServerJs.User.set_avatar (Some "pic.png") Fixture.alice)
               100 200)
  /\ ServerJsStamped.update_avatar "000000000000000000000001" "pic.png" 300
       (snd (ServerJsStamped.update_avatar "000000000000000000000001"
               "pic.png" 200 [ServerJsStamped.alice]))
     = ServerJsStamped.update_avatar "000000000000000000000001" "pic.png"
         300 [ServerJsStamped.alice].
Proof.
  split; [|split].
  - apply (proj1 (@update_avatar_overwrite Fixture.collaborators
                    "000000000000000000000005" "pic.png" 200
                    [ServerJsStamped.alice])).
    intros oid H. injection H as <-. reflexivity.
  - apply (proj1 (proj2 (@update_avatar_overwrite Fixture.collaborators
                           "000000000000000000000001" "pic.png" 200
                           [ServerJsStamped.alice]))
             1%N ServerJsStamped.alice eq_refl eq_refl).
  - apply (proj1 (proj2 (proj2 (@update_avatar_overwrite
                                  Fixture.collaborators
                                  "000000000000000000000001" "pic.png" 200
                                  [ServerJsStamped.alice])))
             300).
Defined.

(** No document has the id 5. *)
Lemma get_user_absent_witness :
  ServerJs.get_user "000000000000000000000005" [Fixture.alice]
  = Respond 200 (BUser None).
Proof.
  apply (proj1 (@get_user_absent Fixture.collaborators
                  "000000000000000000000005" [Fixture.alice])
           5%N eq_refl eq_refl).
Defined.

(** ** The reset code *)

Section ResetCode.
Import ServerJs.

Lemma request_reset_issues email now1 now2 random mail_ok db user :
  findOne_email email db = Some user ->
  date_gt (User.resetCodeExpires user) now1 = false ->
  required_missing user = [] ->
  snd (request_reset email now1 now2 random mail_ok db)
  = updateById (User._id user)
      (fun _ => issued (reset_code random) now2 user) db.
Proof.
  intros Hf Hg Hv. unfold request_reset. rewrite Hf, Hg.
  unfold save.
  replace (required_missing _) with (required_missing user) by reflexivity.
  rewrite Hv. now destruct mail_ok.
Qed.

(** C9: for every double in [[0, 1)] that [Math.random()] can return,
    the code is a string of exactly six decimal digits whose value lies
    between 100000 and 999999; whenever [request_reset] issues a code, the
    document holds that code and an expiry 10 minutes (600000 ms) after
    the clock reading taken at issuance. *)
Theorem reset_code_six_digits :
  (forall random,
      Number.is_random random ->
      String.length (reset_code random) = 6%nat
      /\ Number.all_digits (reset_code random) = true
      /\ 100000 <= Number.value (reset_code random) <= 999999)
  /\ (forall email now1 now2 random mail_ok db user,
         findOne_email email db = Some user ->
         date_gt (User.resetCodeExpires user) now1 = false ->
         required_missing user = [] ->
         exists user',
           findOne_email email
             (snd (request_reset email now1 now2 random mail_ok db))
           = Some user'
           /\ User.resetCode user' = Some (reset_code random)
           /\ User.resetCodeExpires user' = Some (now2 + 600000)).
Proof.
  split.
  - intros random Hr. unfold reset_code.
    pose proof (floor_code_range random Hr) as Hn.
    destruct (toString_six_digits _ Hn) as (Hl & Hd & Hv).
    rewrite Hv. repeat split; try assumption; lia.
  - intros * Hf Hg Hv.
    rewrite (request_reset_issues _ _ _ _ _ _ _ Hf Hg Hv).
    exists (issued (reset_code random) now2 user).
    split; [|split; reflexivity].
    apply findOne_email_updateById; [assumption|].
    now apply findOne_email_Some in Hf.
Qed.

End ResetCode.

(** The largest double below 1 gives the code 999999; alice, whose code
    has expired at 2000, is issued a new one. *)
Lemma reset_code_six_digits_witness :
  (String.length (ServerJs.reset_code Number.max_random) = 6%nat
   /\ Number.all_digits (ServerJs.reset_code Number.max_random) = true
   /\ 100000 <= Number.value (ServerJs.reset_code Number.max_random) <= 999999)
  /\ exists user',
      ServerJs.findOne_email "alice@example.com"
        (snd (ServerJs.request_reset "alice@example.com" 2000 2001
                Number.max_random true [Fixture.alice_code]))
      = Some user'
      /\ ServerJs.User.resetCode user'
         = Some (ServerJs.reset_code Number.max_random)
      /\ ServerJs.User.resetCodeExpires user' = Some (2001 + 600000).
Proof.
  split.
  - apply (proj1 reset_code_six_digits Number.max_random).
    repeat split; vm_compute; congruence.
  - apply (proj2 reset_code_six_digits "alice@example.com" 2000 2001
             Number.max_random true [Fixture.alice_code] Fixture.alice_code);
      reflexivity.
Defined.

(** * Further properties of the handlers *)

(** ** Login ([src/server.js]) *)

Section LoginMore.
Context {C : Collaborators}.
Import ServerJs.

(** X1: for a login request whose email is a string and whose password
    is a string or absent, [login] hands out a session token and a chat
    credential exactly when the email names a user, the password is a
    string that [bcrypt.compare] accepts for the stored digest, the
    account is approved and the chat provider accepted the upsert; under
    these conditions the answer is 200 and carries the signed token, the
    user's id, name, email and phone, and the chat token. *)
Theorem login_session_iff email password chat_ok db :
  (carries_session (login email password chat_ok db) = true <->
   exists user supplied,
     findOne_email email db = Some user
     /\ password = Some supplied
     /\ bcrypt_compare supplied (User.password user) = true
     /\ User.status user = approved
     /\ chat_ok = true)
  /\ (forall user supplied,
         findOne_email email db = Some user ->
         password = Some supplied ->
         bcrypt_compare supplied (User.password user) = true ->
         User.status user = approved ->
         chat_ok = true ->
         login email password chat_ok db
         = Respond 200
             (BSession (jwt_sign (User._id user)) (User._id user)
                       (User.name user) (User.email user) (User.phone user)
                       (createToken (User._id user)))).
Proof.
  unfold login. split; [split|].
  - destruct (findOne_email email db) as [user|]; [|discriminate].
    destruct password as [supplied|]; [|discriminate].
    destruct (bcrypt_compare supplied (User.password user)) eqn:Hc;
      [|discriminate].
    destruct (User.status user) eqn:Hs; [discriminate|].
    destruct chat_ok; [|discriminate].
    intros _. exists user, supplied. repeat split; assumption.
  - intros (user & supplied & Hf & -> & Hc & Hs & ->).
    now rewrite Hf, Hc, Hs.
  - intros user supplied Hf -> Hc Hs ->. now rewrite Hf, Hc, Hs.
Qed.

(** X2: an email that names no user and a wrong password for an
    existing user get the same answer, status and payload alike, so the
    answer does not tell whether the email is registered. *)
Theorem login_same_refusal unknown password chat_ok known wrong chat_ok' db user :
  findOne_email unknown db = None ->
  findOne_email known db = Some user ->
  bcrypt_compare wrong (User.password user) = false ->
  login unknown password chat_ok db = login known (Some wrong) chat_ok' db
  /\ login unknown password chat_ok db
     = Respond 400 (BError "Invalid email or password").
Proof.
  intros Hu Hk Hw. unfold login. now rewrite Hu, Hk, Hw.
Qed.

End LoginMore.

(** Alice is approved and supplies her password. *)
Lemma login_session_iff_witness :
  carries_session
    (ServerJs.login "alice@example.com" (Some "OldPass1") true
       [Fixture.alice; Fixture.bob]) = true
  /\ ServerJs.login "alice@example.com" (Some "OldPass1") true
       [Fixture.alice; Fixture.bob]
     = Respond 200
         (BSession (jwt_sign 1%N) 1%N "Alice" "alice@example.com"
                   (ServerJs.User.phone Fixture.alice) (createToken 1%N)).
Proof.
  split.
  - apply (proj2 (proj1 (@login_session_iff Fixture.collaborators
                           "alice@example.com" (Some "OldPass1") true
                           [Fixture.alice; Fixture.bob]))).
    exists Fixture.alice, "OldPass1". repeat apply conj; reflexivity.
  - apply (proj2 (@login_session_iff Fixture.collaborators
                    "alice@example.com" (Some "OldPass1") true
                    [Fixture.alice; Fixture.bob])
             Fixture.alice "OldPass1" eq_refl eq_refl eq_refl eq_refl
             eq_refl).
Defined.

(** Nobody has the email of dana; alice is given a wrong password. *)
Lemma login_same_refusal_witness :
  ServerJs.login "dana@example.com" None true [Fixture.alice]
  = ServerJs.login "alice@example.com" (Some "guess") false [Fixture.alice].
Proof.
  apply (proj1 (@login_same_refusal Fixture.collaborators "dana@example.com"
                  None true "alice@example.com" "guess" false
                  [Fixture.alice] Fixture.alice eq_refl eq_refl eq_refl)).
Defined.

(** ** Submitting an id and deleting an account ([src/server.js]) *)

Section AccountStore.
Import ServerJs ServerJsRest.

Lemma findById_not_In id db :
  ~ In id (map User._id db) -> findById id db = None.
Proof.
  unfold findById. induction db as [|d rest IH]; simpl; [reflexivity|].
  intros H. destruct (N.eqb_spec (User._id d) id) as [E|E].
  - exfalso. apply H. now left.
  - apply IH. intros Hin. apply H. now right.
Qed.

Lemma findById_removeById id db :
  NoDup (map User._id db) -> findById id (removeById id db) = None.
Proof.
  induction db as [|d rest IH]; simpl; [reflexivity|].
  intros Hnd. inversion Hnd as [|x l Hnotin Hnd' Heq]; subst.
  destruct (N.eqb_spec (User._id d) id) as [E|E].
  - subst id. now apply findById_not_In.
  - unfold findById in *. simpl.
    destruct (N.eqb_spec (User._id d) id) as [E'|_]; [contradiction|].
    now apply IH.
Qed.

Lemma findById_removeById_other id other db :
  other <> id -> findById other (removeById id db) = findById other db.
Proof.
  intros Hne. unfold findById.
  induction db as [|d rest IH]; simpl; [reflexivity|].
  destruct (N.eqb_spec (User._id d) id) as [E|E]; simpl.
  - destruct (N.eqb_spec (User._id d) other) as [E'|_]; [|reflexivity].
    exfalso. apply Hne. now rewrite <- E', E.
  - destruct (N.eqb (User._id d) other); [reflexivity|apply IH].
Qed.

Lemma length_removeById id db user :
  findById id db = Some user -> S (length (removeById id db)) = length db.
Proof.
  unfold findById. induction db as [|d rest IH]; simpl; [discriminate|].
  destruct (N.eqb (User._id d) id); [reflexivity|].
  intros H. simpl. now rewrite IH.
Qed.

(** An update that keeps the email of the document that a lookup by email
    finds is seen by that lookup. *)
Lemma findOne_email_updateById_keep email db u f :
  findOne_email email db = Some u ->
  findById (User._id u) db = Some u ->
  (forall d, User.email (f d) = User.email d) ->
  findOne_email email (updateById (User._id u) f db) = Some (f u).
Proof.
  unfold findOne_email, findById. intros H Hid Hf.
  assert (He : User.email u = email).
  { apply find_some in H as [_ H]. now apply String.eqb_eq. }
  induction db as [|d rest IH]; simpl in *; [discriminate|].
  destruct (String.eqb (User.email d) email) eqn:E.
  - injection H as ->. rewrite N.eqb_refl. simpl.
    now rewrite Hf, E.
  - destruct (N.eqb (User._id d) (User._id u)) eqn:E'.
    + injection Hid as ->. rewrite He, String.eqb_refl in E. discriminate.
    + simpl. rewrite E. now apply IH.
Qed.

End AccountStore.

Section Accounts.
Context {C : Collaborators}.
Import ServerJs ServerJsRest.

(** X3: [submit_id] on an existing user answers 200, stores the image as
    [validId] and puts the status back to pending whatever it was; from
    then on a login of that user with the right password is answered 403,
    also when the account had been approved. *)
Theorem submit_id_back_to_pending userId base64Image db oid user :
  castObjectId userId = Some oid ->
  findById oid db = Some user ->
  fst (submit_id userId base64Image db)
  = Respond 200 (BMessage "Valid ID submitted, awaiting approval")
  /\ findById oid (snd (submit_id userId base64Image db))
     = Some (set_status pending (set_validId (Some base64Image) user))
  /\ forall supplied chat_ok,
       findOne_email (User.email user) db = Some user ->
       bcrypt_compare supplied (User.password user) = true ->
       login (User.email user) (Some supplied) chat_ok
         (snd (submit_id userId base64Image db))
       = Respond 403 (BError "Your account is pending approval").
Proof.
  intros Hc Hf. unfold submit_id. rewrite Hc. simpl.
  pose proof (findById_Some _ _ _ Hf) as [_ Hid].
  split; [reflexivity|]. split.
  - apply (findById_updateById oid
             (fun u => set_status pending (set_validId (Some base64Image) u))
             db user Hf).
    assumption.
  - intros supplied chat_ok He Hp. unfold login.
    rewrite <- Hid in *.
    rewrite (findOne_email_updateById_keep _ _ _ _ He Hf) by reflexivity.
    simpl. now rewrite Hp.
Qed.

(** X4: [delete_user] on a well-formed id that names nobody answers 404
    and leaves the collection as it is.  On an existing user it removes
    exactly that document: a lookup of the id then finds nothing, lookups
    of every other id are unchanged, the collection is one document
    shorter and reading the profile answers 200 with a [null] body. *)
Theorem delete_user_removes id chat_ok db userId :
  castObjectId id = Some userId ->
  NoDup (map User._id db) ->
  (findById userId db = None ->
   delete_user id chat_ok db = (Respond 404 (BError "User not found"), db))
  /\ (forall user,
         findById userId db = Some user ->
         findById userId (snd (delete_user id chat_ok db)) = None
         /\ (forall other,
                other <> userId ->
                findById other (snd (delete_user id chat_ok db))
                = findById other db)
         /\ S (length (snd (delete_user id chat_ok db))) = length db
         /\ get_user id (snd (delete_user id chat_ok db))
            = Respond 200 (BUser None)).
Proof.
  intros Hc Hnd. unfold delete_user, get_user. rewrite Hc. split.
  - intros ->. reflexivity.
  - intros user Hf. rewrite Hf.
    assert (E : forall o o' : outcome,
               snd (if chat_ok then (o, removeById userId db)
                    else (o', removeById userId db))
               = removeById userId db) by (intros; now destruct chat_ok).
    cbv zeta. rewrite !E.
    rewrite (findById_removeById _ _ Hnd).
    repeat split.
    + intros other Hne. now apply findById_removeById_other.
    + now apply length_removeById with (user := user).
Qed.

(** X5: when the chat provider fails, [delete_user] answers 500 "Failed
    to delete user" although the document is already gone; a retry then
    answers 404, so it never reaches the chat provider again. *)
Theorem delete_user_chat_failure id db userId user :
  castObjectId id = Some userId ->
  NoDup (map User._id db) ->
  findById userId db = Some user ->
  delete_user id false db
  = (Respond 500 (BError "Failed to delete user"), removeById userId db)
  /\ findById userId (removeById userId db) = None
  /\ forall chat_ok,
       delete_user id chat_ok (removeById userId db)
       = (Respond 404 (BError "User not found"), removeById userId db).
Proof.
  intros Hc Hnd Hf.
  pose proof (findById_removeById userId db Hnd) as Hgone.
  split; [|split; [assumption|]].
  - unfold delete_user. now rewrite Hc, Hf.
  - intros chat_ok. unfold delete_user. now rewrite Hc, Hgone.
Qed.

End Accounts.

(** ** The recovery workflow as a whole ([src/server.js]) *)

Section CodeWorkflowStore.
Import ServerJs ServerJsRest.

Lemma map_id_updateById id f db :
  (forall d, User._id (f d) = User._id d) ->
  map User._id (updateById id f db) = map User._id db.
Proof.
  intros Hf. induction db as [|d rest IH]; simpl; [reflexivity|].
  destruct (N.eqb (User._id d) id); simpl.
  - now rewrite Hf.
  - now rewrite IH.
Qed.

Lemma map_id_updateById_const u' db :
  map User._id (updateById (User._id u') (fun _ => u') db) = map User._id db.
Proof.
  induction db as [|d rest IH]; simpl; [reflexivity|].
  destruct (N.eqb_spec (User._id d) (User._id u')) as [E|E]; simpl.
  - now rewrite E.
  - now rewrite IH.
Qed.

Lemma NoDup_removeById id db :
  NoDup (map User._id db) -> NoDup (map User._id (removeById id db)).
Proof.
  induction db as [|d rest IH]; simpl; [trivial|].
  intros Hnd. inversion Hnd as [|x l Hnotin Hnd' Heq]; subst.
  destruct (N.eqb (User._id d) id); [assumption|].
  simpl. constructor; [|now apply IH].
  intros Hin. apply Hnotin.
  clear - Hin. induction rest as [|e rest IH]; simpl in *; [contradiction|].
  destruct (N.eqb (User._id e) id); simpl in *.
  - now right.
  - destruct Hin as [H|H]; [now left|right; now apply IH].
Qed.

(** With unique ids, writing back a document that kept its identity
    keeps the identity of every document. *)
Lemma map_identity_updateById user u' db :
  NoDup (map User._id db) ->
  In user db ->
  identity u' = identity user ->
  map identity (updateById (User._id user) (fun _ => u') db)
  = map identity db.
Proof.
  intros Hnd Hin Hi. induction db as [|d rest IH]; simpl; [reflexivity|].
  inversion Hnd as [|x l Hnotin Hnd' Heq]; subst.
  destruct (N.eqb_spec (User._id d) (User._id user)) as [E|E]; simpl.
  - destruct Hin as [->|Hin]; [now rewrite Hi|].
    exfalso. apply Hnotin. rewrite E. now apply in_map.
  - destruct Hin as [->|Hin]; [contradiction|].
    now rewrite IH.
Qed.

Lemma required_missing_set_password h u :
  required_missing u = [] ->
  h <> "" ->
  required_missing (User.set_password h u) = [].
Proof.
  unfold required_missing. simpl. intros H Hh.
  apply String.eqb_neq in Hh. rewrite Hh.
  destruct (String.eqb (User.name u) ""); [discriminate|].
  destruct (String.eqb (User.email u) ""); [discriminate|].
  destruct (String.eqb (User.password u) ""); [discriminate|].
  exact H.
Qed.

End CodeWorkflowStore.

Section CodeWorkflow.
Context {C : Collaborators}.
Import ServerJs ServerJsRest.

Lemma signup_leaves_collection name email password phone validId selfie salt
      newId db :
  snd (signup name email password phone validId selfie salt newId db) = db.
Proof.
  unfold signup.
  destruct (_ || _); [reflexivity|].
  destruct (findOne_email _ db); [reflexivity|].
  destruct (findOne_phone _ db); [reflexivity|].
  cbv zeta.
  now destruct (insert_new_user_fails newId (str name) (str email)
                  (bcrypt_hash salt (str password)) (str phone) validId selfie
                  db) as [err ->].
Qed.

(** What [request_reset] can have written. *)
Lemma request_reset_writes email now1 now2 random mail_ok db :
  snd (request_reset email now1 now2 random mail_ok db) = db
  \/ exists user,
       findOne_email email db = Some user
       /\ snd (request_reset email now1 now2 random mail_ok db)
          = updateById (User._id user)
              (fun _ => issued (reset_code random) now2 user) db.
Proof.
  unfold request_reset.
  destruct (findOne_email email db) as [user|] eqn:Hf; [|now left].
  destruct (date_gt (User.resetCodeExpires user) now1); [now left|].
  destruct (save _ db) as [err|db1] eqn:Hs; [now left|].
  apply save_inr in Hs as [_ ->]. right. exists user.
  split; [reflexivity|]. now destruct mail_ok.
Qed.

(** What [verify_reset] can have written. *)
Lemma verify_reset_writes email code password salt now1 now2 db :
  snd (verify_reset email code password salt now1 now2 db) = db
  \/ exists user newPassword,
       findOne_email email db = Some user
       /\ snd (verify_reset email code password salt now1 now2 db)
          = updateById (User._id user)
              (fun _ => cleared salt newPassword user) db.
Proof.
  unfold verify_reset.
  destruct (findOne_email email db) as [user|] eqn:Hf; [|now left].
  destruct (_ || _); [now left|].
  destruct (date_lt (User.resetCodeExpires user) now2); [now left|].
  destruct password as [newPassword|]; [|now left].
  destruct (save _ db) as [err|db1] eqn:Hs; [now left|].
  apply save_inr in Hs as [_ ->]. right. now exists user, newPassword.
Qed.

(** X6: a code issued by [request_reset] is accepted by [verify_reset]
    at any clock reading up to its expiry, whether or not the mail went
    out.  Afterwards the stored digest is the hash of the new password:
    login refuses every password that [bcrypt.compare] rejects for that
    hash, and gives an approved user a session for the new password when
    [bcrypt.compare] accepts it. *)
Theorem code_reset_round_trip email now1 now2 random mail_ok db user
        newPassword salt now3 now4 :
  findOne_email email db = Some user ->
  date_gt (User.resetCodeExpires user) now1 = false ->
  required_missing user = [] ->
  bcrypt_hash salt newPassword <> "" ->
  now3 <= now2 + 600000 ->
  now4 <= now2 + 600000 ->
  let db1 := snd (request_reset email now1 now2 random mail_ok db) in
  let r := verify_reset email (Some (reset_code random)) (Some newPassword)
             salt now3 now4 db1 in
  fst r = Respond 200 (BSuccess true "Password reset successfully")
  /\ findOne_email email (snd r)
     = Some (cleared salt newPassword (issued (reset_code random) now2 user))
  /\ (forall supplied chat_ok,
         bcrypt_compare supplied (bcrypt_hash salt newPassword) = false ->
         login email (Some supplied) chat_ok (snd r)
         = Respond 400 (BError "Invalid email or password"))
  /\ (bcrypt_compare newPassword (bcrypt_hash salt newPassword) = true ->
      User.status user = approved ->
      carries_session (login email (Some newPassword) true (snd r)) = true).
Proof.
  intros Hf Hg Hv Hh H3 H4 db1 r.
  pose proof (findOne_email_Some _ _ _ Hf) as [_ He].
  set (u1 := issued (reset_code random) now2 user).
  assert (Hdb1 : db1 = updateById (User._id user) (fun _ => u1) db)
    by (apply request_reset_issues; assumption).
  assert (Hf1 : findOne_email email db1 = Some u1).
  { rewrite Hdb1. exact (findOne_email_updateById email db user u1 Hf He). }
  assert (Hr : r = (Respond 200 (BSuccess true "Password reset successfully"),
                    updateById (User._id u1)
                      (fun _ => cleared salt newPassword u1) db1)).
  { unfold r. apply verify_reset_accepts with (user := u1).
    - assumption.
    - reflexivity.
    - simpl. apply Z.ltb_ge. lia.
    - simpl. apply Z.ltb_ge. lia.
    - change (required_missing
                (User.set_password (bcrypt_hash salt newPassword) user) = []).
      now apply required_missing_set_password. }
  assert (Hf2 : findOne_email email (snd r)
                = Some (cleared salt newPassword u1)).
  { rewrite Hr. simpl.
    exact (findOne_email_updateById email db1 u1
             (cleared salt newPassword u1) Hf1 He). }
  rewrite Hr at 1. split; [reflexivity|]. split; [assumption|]. split.
  - intros supplied chat_ok Hc. unfold login. rewrite Hf2.
    change (User.password (cleared salt newPassword u1))
      with (bcrypt_hash salt newPassword).
    now rewrite Hc.
  - intros Hc Hs. unfold login. rewrite Hf2.
    change (User.password (cleared salt newPassword u1))
      with (bcrypt_hash salt newPassword).
    rewrite Hc. simpl. now rewrite Hs.
Qed.

(** X7: when the mail cannot be sent, [request_reset] answers 500 but
    the code and its expiry stay stored, and every further request made
    before that expiry is answered 429. *)
Theorem request_reset_mail_failure email now1 now2 random db user :
  findOne_email email db = Some user ->
  date_gt (User.resetCodeExpires user) now1 = false ->
  required_missing user = [] ->
  let r := request_reset email now1 now2 random false db in
  fst r = Respond 500 (BMessage "Failed to send email")
  /\ findOne_email email (snd r)
     = Some (issued (reset_code random) now2 user)
  /\ forall now1' now2' random' mail_ok',
       now1' < now2 + 600000 ->
       request_reset email now1' now2' random' mail_ok' (snd r)
       = (Respond 429
            (BSuccess false "Please wait before requesting a new code."),
          snd r).
Proof.
  intros Hf Hg Hv r.
  pose proof (findOne_email_Some _ _ _ Hf) as [_ He].
  assert (Hf1 : findOne_email email (snd r)
                = Some (issued (reset_code random) now2 user)).
  { unfold r. rewrite (request_reset_issues _ _ _ _ _ _ _ Hf Hg Hv).
    exact (findOne_email_updateById email db user
             (issued (reset_code random) now2 user) Hf He). }
  split; [|split; [assumption|]].
  - unfold r, request_reset. rewrite Hf, Hg. unfold save.
    replace (required_missing _) with (required_missing user) by reflexivity.
    now rewrite Hv.
  - intros now1' now2' random' mail_ok' Hlt.
    apply request_reset_limited
      with (user := issued (reset_code random) now2 user)
           (t := now2 + 600000); [assumption|reflexivity|assumption].
Qed.

(** X8: with unique ids, neither [request_reset] nor [verify_reset]
    changes the id, name, email, phone, role or status of any document; a
    pending account stays pending through a reset. *)
Theorem code_recovery_keeps_identity db :
  NoDup (map User._id db) ->
  (forall email now1 now2 random mail_ok,
      map identity (snd (request_reset email now1 now2 random mail_ok db))
      = map identity db)
  /\ (forall email code password salt now1 now2,
         map identity (snd (verify_reset email code password salt now1 now2 db))
         = map identity db).
Proof.
  intros Hnd. split.
  - intros. destruct (request_reset_writes email now1 now2 random mail_ok db)
      as [->|(user & Hf & ->)]; [reflexivity|].
    apply map_identity_updateById; [assumption| |reflexivity].
    now apply findOne_email_Some in Hf.
  - intros. destruct (verify_reset_writes email code password salt now1 now2 db)
      as [->|(user & newPassword & Hf & ->)]; [reflexivity|].
    apply map_identity_updateById; [assumption| |reflexivity].
    now apply findOne_email_Some in Hf.
Qed.

(** X9: every handler of [src/server.js] that writes the user
    collection keeps the ids of its documents unique. *)
Theorem server_keeps_ids_unique db :
  NoDup (map User._id db) ->
  (forall name email password phone validId selfie salt newId,
      NoDup (map User._id
               (snd (signup name email password phone validId selfie salt
                       newId db))))
  /\ (forall id avatar,
         NoDup (map User._id (snd (update_avatar id avatar db))))
  /\ (forall userId base64Image,
         NoDup (map User._id (snd (submit_id userId base64Image db))))
  /\ (forall id chat_ok,
         NoDup (map User._id (snd (delete_user id chat_ok db))))
  /\ (forall email now1 now2 random mail_ok,
         NoDup (map User._id
                  (snd (request_reset email now1 now2 random mail_ok db))))
  /\ (forall email code password salt now1 now2,
         NoDup (map User._id
                  (snd (verify_reset email code password salt now1 now2 db)))).
Proof.
  intros Hnd. repeat split.
  - intros. now rewrite signup_leaves_collection.
  - intros. unfold update_avatar.
    destruct (castObjectId id); simpl; [|assumption].
    now rewrite map_id_updateById.
  - intros. unfold submit_id.
    destruct (castObjectId userId); simpl; [|assumption].
    now rewrite map_id_updateById.
  - intros. unfold delete_user.
    destruct (castObjectId id); simpl; [|assumption].
    destruct (findById n db); simpl; [|assumption].
    destruct chat_ok; simpl; now apply NoDup_removeById.
  - intros. destruct (request_reset_writes email now1 now2 random mail_ok db)
      as [->|(user & Hf & ->)]; [assumption|].
    change (User._id user)
      with (User._id (issued (reset_code random) now2 user)).
    now rewrite map_id_updateById_const.
  - intros. destruct (verify_reset_writes email code password salt now1 now2 db)
      as [->|(user & newPassword & Hf & ->)]; [assumption|].
    change (User._id user) with (User._id (cleared salt newPassword user)).
    now rewrite map_id_updateById_const.
Qed.

(** X11: any sequence of attempts whose codes differ from the stored one
    is answered "Invalid or expired code" every time and leaves the
    collection exactly as it was: failed attempts are not counted and do
    not invalidate the stored code. *)
Theorem wrong_codes_change_nothing email attempts db user :
  findOne_email email db = Some user ->
  Forall (fun a => attempt_code a <> User.resetCode user) attempts ->
  verify_resets email attempts db
  = (map (fun _ => invalid_or_expired_code) attempts, db).
Proof.
  intros Hf Hall. induction Hall as [|a rest Ha _ IH]; [reflexivity|].
  destruct a as [[[[code password] salt] now1] now2]. simpl in *.
  rewrite (verify_reset_code_differs email code password salt now1 now2 db
             user Hf) by (intros E; now apply Ha).
  now rewrite IH.
Qed.

End CodeWorkflow.

(** ** The reset token and the workflow of [src/unnamed/part_000] *)

Section TokenText.
Import Part000 Part000Rest.

Lemma hex_digit_cases n :
  (n < 16)%N ->
  is_lower_hex (hex_digit n) = true
  /\ Fixture.hex_value (hex_digit n) = Some n.
Proof.
  intros H.
  assert (Hin : In (N.to_nat n) (seq 0 16)) by (apply in_seq; lia).
  rewrite <- (N2Nat.id n).
  revert Hin. generalize (N.to_nat n) as k. intros k Hk.
  cbn [seq] in Hk.
  repeat (destruct Hk as [<-|Hk]; [split; reflexivity|]).
  destruct Hk.
Qed.

Lemma byte_nibbles b :
  (Byte.to_N b / 16 < 16)%N /\ (Byte.to_N b mod 16 < 16)%N.
Proof.
  pose proof (Byte.to_N_bounded b). split.
  - apply N.Div0.div_lt_upper_bound. lia.
  - apply N.mod_lt. discriminate.
Qed.

Lemma byte_of_nibbles a b :
  (Byte.to_N a / 16 = Byte.to_N b / 16)%N ->
  (Byte.to_N a mod 16 = Byte.to_N b mod 16)%N ->
  a = b.
Proof.
  intros Hd Hm.
  assert (E : Byte.to_N a = Byte.to_N b).
  { rewrite (N.div_mod (Byte.to_N a) 16) by discriminate.
    rewrite (N.div_mod (Byte.to_N b) 16) by discriminate.
    now rewrite Hd, Hm. }
  pose proof (Byte.of_to_N a) as Ha. rewrite E, Byte.of_to_N in Ha.
  now injection Ha.
Qed.

Lemma toHex_inj bytes1 bytes2 : toHex bytes1 = toHex bytes2 -> bytes1 = bytes2.
Proof.
  revert bytes2. induction bytes1 as [|a rest IH]; intros [|b rest2]; simpl;
    try discriminate; [reflexivity|].
  intros H. injection H as H1 H2 H3.
  destruct (byte_nibbles a) as [A1 A2]. destruct (byte_nibbles b) as [B1 B2].
  apply (f_equal Fixture.hex_value) in H1, H2.
  rewrite (proj2 (hex_digit_cases _ A1)), (proj2 (hex_digit_cases _ B1)) in H1.
  rewrite (proj2 (hex_digit_cases _ A2)), (proj2 (hex_digit_cases _ B2)) in H2.
  injection H1 as H1. injection H2 as H2.
  f_equal; [now apply byte_of_nibbles|now apply IH].
Qed.

(** The hexadecimal text of a buffer has two lowercase hexadecimal
    digits per byte. *)
Lemma toHex_shape bytes :
  String.length (toHex bytes) = (2 * List.length bytes)%nat
  /\ all_lower_hex (toHex bytes) = true.
Proof.
  induction bytes as [|b rest [IHl IHh]]; [split; reflexivity|].
  destruct (byte_nibbles b) as [B1 B2]. split.
  - simpl. rewrite IHl. lia.
  - cbn [toHex all_lower_hex].
    rewrite (proj1 (hex_digit_cases _ B1)), (proj1 (hex_digit_cases _ B2)).
    exact IHh.
Qed.

(** X13: [toString("hex")] gives different tokens for different
    buffers, so the 20 random bytes are all kept in the token. *)
Theorem toHex_injective bytes1 bytes2 :
  toHex bytes1 = toHex bytes2 <-> bytes1 = bytes2.
Proof.
  split; [apply toHex_inj|now intros ->].
Qed.

End TokenText.

Section TokenWorkflowStore.
Import Part000 Part000Rest.

Lemma token_findOne_email_Some email db u :
  findOne_email email db = Some u -> In u db /\ User.email u = email.
Proof.
  intros H. apply find_some in H as [Hin He].
  split; [assumption|]. now apply String.eqb_eq.
Qed.

Lemma token_findOne_email_updateById email db u u' :
  findOne_email email db = Some u ->
  User.email u' = email ->
  findOne_email email (updateById (User._id u) (fun _ => u') db) = Some u'.
Proof.
  unfold findOne_email. intros H He.
  induction db as [|d rest IH]; simpl in *; [discriminate|].
  destruct (String.eqb (User.email d) email) eqn:E.
  - injection H as ->. rewrite N.eqb_refl. simpl.
    now rewrite He, String.eqb_refl.
  - destruct (N.eqb (User._id d) (User._id u)); simpl.
    + now rewrite He, String.eqb_refl.
    + rewrite E. now apply IH.
Qed.

Lemma token_In_updateById_const id u' db v :
  In v (updateById id (fun _ => u') db) -> v = u' \/ In v db.
Proof.
  induction db as [|d rest IH]; simpl; [contradiction|].
  destruct (N.eqb (User._id d) id); simpl.
  - intros [<-|H]; [now left|right; now right].
  - intros [<-|H]; [right; now left|].
    destruct (IH H) as [->|H']; [now left|right; now right].
Qed.

Lemma token_updateById_overwrite id u1 u2 db :
  User._id u1 = id ->
  updateById id (fun _ => u2) (updateById id (fun _ => u1) db)
  = updateById id (fun _ => u2) db.
Proof.
  intros Hid. induction db as [|d rest IH]; simpl; [reflexivity|].
  destruct (N.eqb (User._id d) id) eqn:E; simpl.
  - now rewrite Hid, N.eqb_refl.
  - now rewrite E, IH.
Qed.

(** A token that no document held is found on the document it was
    issued to, as long as it has not expired. *)
Lemma findOne_token_issued token now' id u' db d :
  (forall v, In v db -> User.resetPasswordToken v <> Some token) ->
  findById id db = Some d ->
  User.resetPasswordToken u' = Some token ->
  date_gt (User.resetPasswordExpires u') now' = true ->
  findOne_token token now' (updateById id (fun _ => u') db) = Some u'.
Proof.
  unfold findOne_token, findById. intros Hfresh Hd Ht He.
  induction db as [|d0 rest IH]; simpl in *; [discriminate|].
  destruct (N.eqb (User._id d0) id) eqn:E; simpl.
  - now rewrite Ht, String.eqb_refl, He.
  - destruct (User.resetPasswordToken d0) as [t|] eqn:Et.
    + destruct (String.eqb_spec t token) as [->|_].
      * exfalso. apply (Hfresh d0); [now left|assumption].
      * simpl. apply IH; [|assumption].
        intros v Hv. apply Hfresh. now right.
    + simpl. apply IH; [|assumption].
      intros v Hv. apply Hfresh. now right.
Qed.

Lemma token_map_identity_updateById user u' db :
  NoDup (map User._id db) ->
  In user db ->
  identity u' = identity user ->
  map identity (updateById (User._id user) (fun _ => u') db)
  = map identity db.
Proof.
  intros Hnd Hin Hi. induction db as [|d rest IH]; simpl; [reflexivity|].
  inversion Hnd as [|x l Hnotin Hnd' Heq]; subst.
  destruct (N.eqb_spec (User._id d) (User._id user)) as [E|E]; simpl.
  - destruct Hin as [->|Hin]; [now rewrite Hi|].
    exfalso. apply Hnotin. rewrite E. now apply in_map.
  - destruct Hin as [->|Hin]; [contradiction|].
    now rewrite IH.
Qed.

Lemma token_required_missing_set_password h u :
  required_missing u = [] ->
  h <> "" ->
  required_missing (User.set_password h u) = [].
Proof.
  unfold required_missing. simpl. intros H Hh.
  apply String.eqb_neq in Hh. rewrite Hh.
  destruct (String.eqb (User.name u) ""); [discriminate|].
  destruct (String.eqb (User.email u) ""); [discriminate|].
  destruct (String.eqb (User.password u) ""); [discriminate|].
  exact H.
Qed.

Lemma findOne_email_not_In email db :
  findOne_email email db = None -> ~ In email (map User.email db).
Proof.
  unfold findOne_email. induction db as [|d rest IH]; simpl; [tauto|].
  destruct (String.eqb_spec (User.email d) email) as [E|E]; [discriminate|].
  intros H [H'|H']; [contradiction|now apply IH].
Qed.

Lemma findOne_phone_not_In phone db :
  findOne_phone phone db = None -> ~ In phone (map User.phone db).
Proof.
  unfold findOne_phone. induction db as [|d rest IH]; simpl; [tauto|].
  destruct (String.eqb_spec (User.phone d) phone) as [E|E]; [discriminate|].
  intros H [H'|H']; [contradiction|now apply IH].
Qed.

Lemma NoDup_snoc {A} (l : list A) x :
  NoDup l -> ~ In x l -> NoDup (l ++ [x])%list.
Proof.
  intros Hnd Hx. apply NoDup_app. repeat split.
  - assumption.
  - constructor; [intros []|constructor].
  - intros a Ha [<-|[]]. contradiction.
Qed.

Lemma findOne_email_snoc email db u :
  findOne_email email (db ++ [u])%list
  = match findOne_email email db with
    | Some d => Some d
    | None => if String.eqb (User.email u) email then Some u else None
    end.
Proof.
  unfold findOne_email. induction db as [|d rest IH]; simpl; [reflexivity|].
  destruct (String.eqb (User.email d) email); [reflexivity|apply IH].
Qed.

End TokenWorkflowStore.

Section TokenWorkflow.
Context {C : Collaborators}.
Import Part000 Part000Rest.

Lemma forgot_password_writes email randomBytes now mail_ok db :
  snd (forgot_password email randomBytes now mail_ok db) = db
  \/ exists user,
       findOne_email email db = Some user
       /\ snd (forgot_password email randomBytes now mail_ok db)
          = updateById (User._id user)
              (fun _ => issued (toHex randomBytes) now user) db.
Proof.
  unfold forgot_password.
  destruct (findOne_email email db) as [user|] eqn:Hf; [|now left].
  destruct (save _ db) as [err|db1] eqn:Hs; [now left|].
  apply token_save_inr in Hs as [_ ->]. right. exists user.
  split; [reflexivity|]. now destruct mail_ok.
Qed.

Lemma reset_password_writes_cleared token password salt now db :
  snd (reset_password token password salt now db) = db
  \/ exists user newPassword,
       findOne_token token now db = Some user
       /\ snd (reset_password token password salt now db)
          = updateById (User._id user)
              (fun _ => cleared salt newPassword user) db.
Proof.
  unfold reset_password.
  destruct (findOne_token token now db) as [user|] eqn:Hf; [|now left].
  destruct password as [newPassword|]; [|now left].
  destruct (save _ db) as [err|db1] eqn:Hs; [now left|].
  apply token_save_inr in Hs as [_ ->]. right. now exists user, newPassword.
Qed.

Lemma signup_writes name email password phone validId selfie salt newId db :
  snd (signup name email password phone validId selfie salt newId db) = db
  \/ (findOne_email (str email) db = None
      /\ findOne_phone (str phone) db = None
      /\ snd (signup name email password phone validId selfie salt newId db)
         = (db ++ [User.mk newId (str name) (str email)
                           (bcrypt_hash salt (str password)) (str phone)
                           role_user None pending validId selfie None None])%list).
Proof.
  unfold signup.
  destruct (_ || _); [now left|].
  destruct (findOne_email (str email) db) eqn:He; [now left|].
  destruct (findOne_phone (str phone) db) eqn:Hp; [now left|].
  cbv zeta. unfold insert.
  destruct (required_missing _); [|now left].
  simpl. rewrite He. right. repeat split.
Qed.

(** X12: the token that [forgot_password] stores for a 20-byte buffer is
    a string of 40 lowercase hexadecimal digits, and its expiry is one
    hour (3600000 ms) after the clock reading. *)
Theorem forgot_password_token_shape email randomBytes now mail_ok db user :
  findOne_email email db = Some user ->
  required_missing user = [] ->
  List.length randomBytes = 20%nat ->
  exists user' token,
    findOne_email email
      (snd (forgot_password email randomBytes now mail_ok db)) = Some user'
    /\ User.resetPasswordToken user' = Some token
    /\ String.length token = 40%nat
    /\ all_lower_hex token = true
    /\ User.resetPasswordExpires user' = Some (now + 3600000).
Proof.
  intros Hf Hv Hl.
  rewrite (forgot_password_reissues _ _ _ _ _ _ Hf Hv).
  exists (issued (toHex randomBytes) now user), (toHex randomBytes).
  destruct (toHex_shape randomBytes) as [Hlen Hhex].
  pose proof (token_findOne_email_Some _ _ _ Hf) as [_ He].
  repeat split.
  - exact (token_findOne_email_updateById email db user
             (issued (toHex randomBytes) now user) Hf He).
  - rewrite Hlen, Hl. reflexivity.
  - assumption.
Qed.

(** X14: a token that no document held before is accepted by
    [reset_password] at every clock reading before its expiry, whether or
    not the mail went out, and an approved user can then log in with the
    new password; from the expiry on the token is refused and nothing is
    written. *)
Theorem token_reset_round_trip email randomBytes now mail_ok db user
        newPassword salt now' :
  findOne_email email db = Some user ->
  required_missing user = [] ->
  bcrypt_hash salt newPassword <> "" ->
  (forall v, In v db -> User.resetPasswordToken v <> Some (toHex randomBytes)) ->
  let db1 := snd (forgot_password email randomBytes now mail_ok db) in
  let r := reset_password (toHex randomBytes) (Some newPassword) salt now'
             db1 in
  (now' < now + 3600000 ->
   fst r = Respond 200 (BMessage "Password has been reset successfully")
   /\ findOne_email email (snd r)
      = Some (cleared salt newPassword (issued (toHex randomBytes) now user))
   /\ (bcrypt_compare newPassword (bcrypt_hash salt newPassword) = true ->
       User.status user = approved ->
       carries_session (login email (Some newPassword) true (snd r)) = true))
  /\ (now + 3600000 <= now' -> r = (invalid_or_expired_token, db1)).
Proof.
  intros Hf Hv Hh Hfresh db1 r.
  pose proof (token_findOne_email_Some _ _ _ Hf) as [Hin He].
  set (token := toHex randomBytes) in *.
  set (u1 := issued token now user).
  assert (Hdb1 : db1 = updateById (User._id user) (fun _ => u1) db)
    by (apply forgot_password_reissues; assumption).
  assert (Hf1 : findOne_email email db1 = Some u1).
  { rewrite Hdb1. exact (token_findOne_email_updateById email db user u1 Hf He). }
  split.
  - intros Hlt.
    destruct (token_findById_In _ _ Hin) as [d Hd].
    assert (Ht : findOne_token token now' db1 = Some u1).
    { rewrite Hdb1. apply findOne_token_issued with (d := d);
        [assumption|assumption|reflexivity|].
      simpl. now apply Z.ltb_lt. }
    assert (Hr : r = (Respond 200
                        (BMessage "Password has been reset successfully"),
                      updateById (User._id u1)
                        (fun _ => cleared salt newPassword u1) db1)).
    { unfold r, reset_password. rewrite Ht. unfold save.
      fold (cleared salt newPassword u1).
      replace (required_missing (cleared salt newPassword u1))
        with (required_missing
                (User.set_password (bcrypt_hash salt newPassword) user))
        by reflexivity.
      now rewrite token_required_missing_set_password. }
    assert (Hf2 : findOne_email email (snd r)
                  = Some (cleared salt newPassword u1)).
    { rewrite Hr. simpl.
      exact (token_findOne_email_updateById email db1 u1
               (cleared salt newPassword u1) Hf1 He). }
    rewrite Hr at 1. split; [reflexivity|]. split; [assumption|].
    intros Hc Hs. unfold login. rewrite Hf2.
    change (User.password (cleared salt newPassword u1))
      with (bcrypt_hash salt newPassword).
    rewrite Hc. simpl. now rewrite Hs.
  - intros Hge. unfold r. apply reset_password_expired.
    intros v t Hv' Htok Hexp. rewrite Hdb1 in Hv'.
    apply token_In_updateById_const in Hv' as [->|Hv'].
    + simpl in Hexp. injection Hexp as <-. assumption.
    + exfalso. now apply (Hfresh v).
Qed.

(** X15: a second [forgot_password] for the same user replaces the
    token: the first token, if it differs from the second, is refused from
    then on, at any time. *)
Theorem forgot_password_supersedes email bytes1 bytes2 now1 now2 mail1 mail2
        db user password salt now' :
  findOne_email email db = Some user ->
  required_missing user = [] ->
  (forall v, In v db -> User.resetPasswordToken v <> Some (toHex bytes1)) ->
  bytes1 <> bytes2 ->
  let db1 := snd (forgot_password email bytes1 now1 mail1 db) in
  let db2 := snd (forgot_password email bytes2 now2 mail2 db1) in
  reset_password (toHex bytes1) password salt now' db2
  = (invalid_or_expired_token, db2).
Proof.
  intros Hf Hv Hfresh Hne db1 db2.
  pose proof (token_findOne_email_Some _ _ _ Hf) as [Hin He].
  set (u1 := issued (toHex bytes1) now1 user).
  assert (Hdb1 : db1 = updateById (User._id user) (fun _ => u1) db)
    by (apply forgot_password_reissues; assumption).
  assert (Hf1 : findOne_email email db1 = Some u1).
  { rewrite Hdb1. exact (token_findOne_email_updateById email db user u1 Hf He). }
  assert (Hdb2 : db2 = updateById (User._id user)
                         (fun _ => issued (toHex bytes2) now2 u1) db).
  { unfold db2.
    rewrite (forgot_password_reissues _ _ _ _ _ _ Hf1 Hv).
    rewrite Hdb1. now apply token_updateById_overwrite. }
  apply reset_password_token_differs.
  intros v Hv'. rewrite Hdb2 in Hv'.
  apply token_In_updateById_const in Hv' as [->|Hv'].
  - simpl. intros E. injection E as E. apply Hne. symmetry.
    now apply toHex_inj.
  - now apply Hfresh.
Qed.

(** X16: [signup] of [part_000] keeps ids, emails and phones unique,
    provided the generated id is fresh. *)
Theorem token_signup_keeps_unique name email password phone validId selfie
        salt newId db :
  NoDup (map User._id db) ->
  NoDup (map User.email db) ->
  NoDup (map User.phone db) ->
  ~ In newId (map User._id db) ->
  let db' := snd (signup name email password phone validId selfie salt newId
                    db) in
  NoDup (map User._id db')
  /\ NoDup (map User.email db')
  /\ NoDup (map User.phone db').
Proof.
  intros Hi He Hp Hnew db'. unfold db'.
  destruct (signup_writes name email password phone validId selfie salt newId
              db) as [->|(Hfe & Hfp & ->)]; [now repeat split|].
  rewrite !map_app. simpl. repeat split; apply NoDup_snoc; try assumption.
  - now apply findOne_email_not_In.
  - now apply findOne_phone_not_In.
Qed.

(** X17: a user stored by [signup] of [part_000] is pending: a login
    with the password just registered is answered 403.  Logins with any
    other email are answered as before the signup. *)
Theorem token_signup_then_login name email password phone validId selfie salt
        newId db :
  complete name email password phone validId selfie ->
  findOne_email (str email) db = None ->
  findOne_phone (str phone) db = None ->
  bcrypt_hash salt (str password) <> "" ->
  let db' := snd (signup name email password phone validId selfie salt newId
                    db) in
  (forall chat_ok,
      bcrypt_compare (str password) (bcrypt_hash salt (str password)) = true ->
      login (str email) (Some (str password)) chat_ok db'
      = Respond 403 (BError "Your account is pending approval"))
  /\ (forall other supplied chat_ok,
         other <> str email ->
         login other supplied chat_ok db' = login other supplied chat_ok db).
Proof.
  intros Hc He Hp Hh db'. unfold db'.
  rewrite (token_signup_stores _ _ _ _ _ _ salt newId db Hc He Hp Hh). simpl.
  split.
  - intros chat_ok Hcmp. unfold login.
    rewrite findOne_email_snoc, He. simpl.
    rewrite String.eqb_refl. simpl. now rewrite Hcmp.
  - intros other supplied chat_ok Hne. unfold login.
    rewrite findOne_email_snoc. simpl.
    destruct (findOne_email other db); [reflexivity|].
    destruct (String.eqb_spec (str email) other) as [E|_];
      [now symmetry in E|reflexivity].
Qed.

(** X18: with unique ids, neither [forgot_password] nor
    [reset_password] changes the id, name, email, phone, role or status of
    any document. *)
Theorem token_recovery_keeps_identity db :
  NoDup (map User._id db) ->
  (forall email randomBytes now mail_ok,
      map identity (snd (forgot_password email randomBytes now mail_ok db))
      = map identity db)
  /\ (forall token password salt now,
         map identity (snd (reset_password token password salt now db))
         = map identity db).
Proof.
  intros Hnd. split.
  - intros. destruct (forgot_password_writes email randomBytes now mail_ok db)
      as [->|(user & Hf & ->)]; [reflexivity|].
    apply token_map_identity_updateById; [assumption| |reflexivity].
    now apply token_findOne_email_Some in Hf.
  - intros. destruct (reset_password_writes_cleared token password salt now db)
      as [->|(user & newPassword & Hf & ->)]; [reflexivity|].
    apply token_map_identity_updateById; [assumption| |reflexivity].
    now apply findOne_token_Some in Hf.
Qed.

End TokenWorkflow.

(** ** Closed examples of the further properties *)

Lemma two_ids_unique : NoDup (map ServerJs.User._id [Fixture.alice; Fixture.bob]).
Proof.
  constructor.
  - intros [H|[]]. discriminate H.
  - constructor; [intros []|constructor].
Defined.

Lemma one_is_unique {A} (x : A) : NoDup [x].
Proof. constructor; [intros []|constructor]. Defined.

Lemma carol_token_differs :
  forall v, In v [Fixture.carol] ->
            Part000.User.resetPasswordToken v
            <> Some (Part000.toHex Fixture.bytes20).
Proof. intros v [<-|[]]. discriminate. Defined.

(** Alice, approved, submits an id and logs in with her password. *)
Lemma submit_id_back_to_pending_witness :
  ServerJs.login "alice@example.com" (Some "OldPass1") true
    (snd (ServerJsRest.submit_id "000000000000000000000001" "new-id.png"
            [Fixture.alice]))
  = Respond 403 (BError "Your account is pending approval").
Proof.
  apply (proj2 (proj2 (@submit_id_back_to_pending Fixture.collaborators
                         "000000000000000000000001" "new-id.png"
                         [Fixture.alice] 1%N Fixture.alice eq_refl eq_refl))
           "OldPass1" true eq_refl eq_refl).
Defined.

(** Alice is deleted from a collection that also holds bob. *)
Lemma delete_user_removes_witness :
  ServerJs.findById 1
    (snd (ServerJsRest.delete_user "000000000000000000000001" true
            [Fixture.alice; Fixture.bob])) = None
  /\ ServerJs.findById 2
       (snd (ServerJsRest.delete_user "000000000000000000000001" true
               [Fixture.alice; Fixture.bob])) = Some Fixture.bob.
Proof.
  destruct (proj2 (@delete_user_removes Fixture.collaborators
                     "000000000000000000000001" true
                     [Fixture.alice; Fixture.bob] 1%N eq_refl two_ids_unique)
              Fixture.alice eq_refl) as (Hgone & Hother & _).
  split; [exact Hgone|].
  apply (Hother 2%N). discriminate.
Defined.

(** The chat provider fails while alice is deleted. *)
Lemma delete_user_chat_failure_witness :
  ServerJsRest.delete_user "000000000000000000000001" false
    [Fixture.alice; Fixture.bob]
  = (Respond 500 (BError "Failed to delete user"), [Fixture.bob])
  /\ ServerJsRest.delete_user "000000000000000000000001" true [Fixture.bob]
     = (Respond 404 (BError "User not found"), [Fixture.bob]).
Proof.
  destruct (@delete_user_chat_failure Fixture.collaborators
              "000000000000000000000001" [Fixture.alice; Fixture.bob] 1%N
              Fixture.alice eq_refl two_ids_unique eq_refl)
    as (H500 & _ & Hretry).
  split; [exact H500|exact (Hretry true)].
Defined.

(** Alice asks for a code at 2000 and uses it at 3000. *)
Lemma code_reset_round_trip_witness :
  fst (ServerJs.verify_reset "alice@example.com"
         (Some (ServerJs.reset_code 0)) (Some "NewPass1") "s9" 3000 3000
         (snd (ServerJs.request_reset "alice@example.com" 2000 2001 0 true
                 [Fixture.alice])))
  = Respond 200 (BSuccess true "Password reset successfully").
Proof.
  apply (proj1 (@code_reset_round_trip Fixture.collaborators
                  "alice@example.com" 2000 2001 0 true [Fixture.alice]
                  Fixture.alice "NewPass1" "s9" 3000 3000 eq_refl eq_refl
                  eq_refl ltac:(discriminate) ltac:(lia) ltac:(lia))).
Defined.

(** The mail to alice fails at 2001; she asks again at 2500. *)
Lemma request_reset_mail_failure_witness :
  fst (ServerJs.request_reset "alice@example.com" 2500 2501 0 true
         (snd (ServerJs.request_reset "alice@example.com" 2000 2001 0 false
                 [Fixture.alice])))
  = Respond 429 (BSuccess false "Please wait before requesting a new code.").
Proof.
  destruct (@request_reset_mail_failure "alice@example.com" 2000 2001 0
              [Fixture.alice] Fixture.alice eq_refl eq_refl eq_refl)
    as (_ & _ & H).
  now rewrite (H 2500 2501 0 true ltac:(lia)).
Defined.

(** Alice completes a reset in a collection that also holds bob. *)
Lemma code_recovery_keeps_identity_witness :
  map ServerJsRest.identity
    (snd (ServerJs.verify_reset "alice@example.com" None (Some "NewPass1")
            "s9" 2000 2000 [Fixture.alice; Fixture.bob]))
  = map ServerJsRest.identity [Fixture.alice; Fixture.bob].
Proof.
  apply (proj2 (@code_recovery_keeps_identity Fixture.collaborators
                  [Fixture.alice; Fixture.bob] two_ids_unique)).
Defined.

(** The ids of alice and bob after the avatar of alice is set. *)
Lemma server_keeps_ids_unique_witness :
  NoDup (map ServerJs.User._id
           (snd (ServerJs.update_avatar "000000000000000000000001" "pic.png"
                   [Fixture.alice; Fixture.bob]))).
Proof.
  apply (proj1 (proj2 (@server_keeps_ids_unique Fixture.collaborators
                         [Fixture.alice; Fixture.bob] two_ids_unique))).
Defined.

(** Two wrong guesses at the code of alice, one of them without a code. *)
Lemma wrong_codes_change_nothing_witness :
  ServerJsRest.verify_resets "alice@example.com"
    [(Some "000000", Some "Mine1", "s1", 500, 500);
     (None, Some "Mine2", "s2", 501, 501)] [Fixture.alice_code]
  = ([ServerJs.invalid_or_expired_code; ServerJs.invalid_or_expired_code],
     [Fixture.alice_code]).
Proof.
  apply (@wrong_codes_change_nothing Fixture.collaborators "alice@example.com"
           [(Some "000000", Some "Mine1", "s1", 500, 500);
            (None, Some "Mine2", "s2", 501, 501)]
           [Fixture.alice_code] Fixture.alice_code eq_refl).
  repeat constructor; discriminate.
Defined.

(** Carol is issued a token from a 20-byte buffer. *)
Lemma forgot_password_token_shape_witness :
  exists user' token,
    Part000.findOne_email "carol@example.com"
      (snd (Part000.forgot_password "carol@example.com" Fixture.bytes20 6000
              true [Fixture.carol])) = Some user'
    /\ Part000.User.resetPasswordToken user' = Some token
    /\ String.length token = 40%nat
    /\ Part000Rest.all_lower_hex token = true
    /\ Part000.User.resetPasswordExpires user' = Some (6000 + 3600000).
Proof.
  apply (forgot_password_token_shape "carol@example.com" Fixture.bytes20 6000
           true [Fixture.carol] Fixture.carol eq_refl eq_refl eq_refl).
Defined.

(** Carol uses the new token one second after it was issued, and not at
    all one hour later. *)
Lemma token_reset_round_trip_witness :
  fst (Part000.reset_password (Part000.toHex Fixture.bytes20)
         (Some "NewPass3") "s9" 7000
         (snd (Part000.forgot_password "carol@example.com" Fixture.bytes20
                 6000 false [Fixture.carol])))
  = Respond 200 (BMessage "Password has been reset successfully")
  /\ fst (Part000.reset_password (Part000.toHex Fixture.bytes20)
            (Some "NewPass3") "s9" 3606000
            (snd (Part000.forgot_password "carol@example.com" Fixture.bytes20
                    6000 false [Fixture.carol])))
     = Part000.invalid_or_expired_token.
Proof.
  split.
  - apply (proj1 (@token_reset_round_trip Fixture.collaborators
                    "carol@example.com" Fixture.bytes20 6000 false
                    [Fixture.carol] Fixture.carol "NewPass3" "s9" 7000
                    eq_refl eq_refl ltac:(discriminate) carol_token_differs)).
    reflexivity.
  - rewrite (proj2 (@token_reset_round_trip Fixture.collaborators
                      "carol@example.com" Fixture.bytes20 6000 false
                      [Fixture.carol] Fixture.carol "NewPass3" "s9" 3606000
                      eq_refl eq_refl ltac:(discriminate) carol_token_differs)
               ltac:(lia)).
    reflexivity.
Defined.

(** Carol asks twice; the first token is tried afterwards. *)
Lemma forgot_password_supersedes_witness :
  Part000.reset_password (Part000.toHex Fixture.bytes20) (Some "NewPass3")
    "s9" 6002
    (snd (Part000.forgot_password "carol@example.com" (rev Fixture.bytes20)
            6001 true
            (snd (Part000.forgot_password "carol@example.com" Fixture.bytes20
                    6000 true [Fixture.carol]))))
  = (Part000.invalid_or_expired_token,
     snd (Part000.forgot_password "carol@example.com" (rev Fixture.bytes20)
            6001 true
            (snd (Part000.forgot_password "carol@example.com" Fixture.bytes20
                    6000 true [Fixture.carol])))).
Proof.
  apply (@forgot_password_supersedes Fixture.collaborators "carol@example.com"
           Fixture.bytes20 (rev Fixture.bytes20) 6000 6001 true true
           [Fixture.carol] Fixture.carol (Some "NewPass3") "s9" 6002 eq_refl
           eq_refl carol_token_differs).
  discriminate.
Defined.

(** Dana signs up next to carol with the fresh id 9. *)
Lemma token_signup_keeps_unique_witness :
  NoDup (map Part000.User.email
           (snd (Part000.signup (Some "Dana") (Some "dana@example.com")
                   (Some "Passw0rd") (Some "0920") (Some "id.png")
                   (Some "me.png") "s4" 9 [Fixture.carol]))).
Proof.
  apply (proj1 (proj2 (@token_signup_keeps_unique Fixture.collaborators
                         (Some "Dana") (Some "dana@example.com")
                         (Some "Passw0rd") (Some "0920") (Some "id.png")
                         (Some "me.png") "s4" 9%N [Fixture.carol]
                         (one_is_unique _) (one_is_unique _) (one_is_unique _)
                         ltac:(intros [H|[]]; discriminate H)))).
Defined.

(** Dana signs up and tries to log in at once. *)
Lemma token_signup_then_login_witness :
  Part000Rest.login "dana@example.com" (Some "Passw0rd") true
    (snd (Part000.signup (Some "Dana") (Some "dana@example.com")
            (Some "Passw0rd") (Some "0920") (Some "id.png") (Some "me.png")
            "s4" 9 [Fixture.carol]))
  = Respond 403 (BError "Your account is pending approval").
Proof.
  apply (proj1 (@token_signup_then_login Fixture.collaborators
                  (Some "Dana") (Some "dana@example.com") (Some "Passw0rd")
                  (Some "0920") (Some "id.png") (Some "me.png") "s4" 9%N
                  [Fixture.carol]
                  ltac:(repeat apply conj; reflexivity) eq_refl eq_refl
                  ltac:(discriminate)) true eq_refl).
Defined.

(** Carol completes a reset with her token. *)
Lemma token_recovery_keeps_identity_witness :
  map Part000Rest.identity
    (snd (Part000.reset_password "00ff00ff00ff00ff00ff00ff00ff00ff00ff00ff"
            (Some "NewPass3") "s9" 1000 [Fixture.carol]))
  = map Part000Rest.identity [Fixture.carol].
Proof.
  apply (proj2 (@token_recovery_keeps_identity Fixture.collaborators
                  [Fixture.carol] (one_is_unique _))).
Defined.

(** ** What a login can and cannot be affected by *)

Section LoginViewStore.
Import ServerJs ServerJsRest.

Lemma map_updateById_keep {B} (g : User.t -> B) id f db :
  (forall d, g (f d) = g d) ->
  map g (updateById id f db) = map g db.
Proof.
  intros Hf. induction db as [|d rest IH]; simpl; [reflexivity|].
  destruct (N.eqb (User._id d) id); simpl.
  - now rewrite Hf.
  - now rewrite IH.
Qed.

Lemma map_updateById_const {B} (g : User.t -> B) user u' db :
  NoDup (map User._id db) ->
  In user db ->
  g u' = g user ->
  map g (updateById (User._id user) (fun _ => u') db) = map g db.
Proof.
  intros Hnd Hin Hi. induction db as [|d rest IH]; simpl; [reflexivity|].
  inversion Hnd as [|x l Hnotin Hnd' Heq]; subst.
  destruct (N.eqb_spec (User._id d) (User._id user)) as [E|E]; simpl.
  - destruct Hin as [->|Hin]; [now rewrite Hi|].
    exfalso. apply Hnotin. rewrite E. now apply in_map.
  - destruct Hin as [->|Hin]; [contradiction|].
    now rewrite IH.
Qed.

Lemma findOne_email_view email db1 db2 :
  map login_view db1 = map login_view db2 ->
  option_map login_view (findOne_email email db1)
  = option_map login_view (findOne_email email db2).
Proof.
  unfold findOne_email. revert db2.
  induction db1 as [|d1 rest1 IH]; intros [|d2 rest2] H;
    try discriminate H; [reflexivity|].
  cbn [map] in H.
  assert (Hv : login_view d1 = login_view d2) by congruence.
  assert (Hrest : map login_view rest1 = map login_view rest2) by congruence.
  assert (He : User.email d1 = User.email d2)
    by (unfold login_view in Hv; congruence).
  clear H.
  cbn [find]. rewrite <- He.
  destruct (String.eqb (User.email d1) email).
  - cbn [option_map]. now rewrite Hv.
  - now apply IH.
Qed.

Lemma findOne_email_removeById db id user :
  NoDup (map User.email db) ->
  findById id db = Some user ->
  findOne_email (User.email user) (removeById id db) = None
  /\ forall other,
       other <> User.email user ->
       findOne_email other (removeById id db) = findOne_email other db.
Proof.
  unfold findById, findOne_email.
  induction db as [|d rest IH]; simpl; [discriminate|].
  intros Hnd Hf. inversion Hnd as [|x l Hnotin Hnd' Heq]; subst.
  destruct (N.eqb (User._id d) id) eqn:E.
  - injection Hf as ->. split.
    + destruct (find (fun u => String.eqb (User.email u) (User.email user))
                  rest) as [v|] eqn:Ev; [|reflexivity].
      exfalso. apply find_some in Ev as [Hin Hv].
      apply String.eqb_eq in Hv. apply Hnotin. rewrite <- Hv.
      now apply in_map.
    + intros other Hne.
      destruct (String.eqb_spec (User.email user) other) as [E'|_];
        [now symmetry in E'|reflexivity].
  - destruct (IH Hnd' Hf) as [IH1 IH2].
    assert (Hd : User.email d <> User.email user).
    { intros Heq. apply Hnotin. rewrite Heq.
      apply find_some in Hf as [Hin _]. now apply in_map. }
    split.
    + simpl. destruct (String.eqb_spec (User.email d) (User.email user));
        [contradiction|assumption].
    + intros other Hne. simpl.
      destruct (String.eqb (User.email d) other); [reflexivity|].
      now apply IH2.
Qed.

End LoginViewStore.

Section TokenLoginViewStore.
Import Part000 Part000Rest.

Lemma token_map_updateById_const {B} (g : User.t -> B) user u' db :
  NoDup (map User._id db) ->
  In user db ->
  g u' = g user ->
  map g (updateById (User._id user) (fun _ => u') db) = map g db.
Proof.
  intros Hnd Hin Hi. induction db as [|d rest IH]; simpl; [reflexivity|].
  inversion Hnd as [|x l Hnotin Hnd' Heq]; subst.
  destruct (N.eqb_spec (User._id d) (User._id user)) as [E|E]; simpl.
  - destruct Hin as [->|Hin]; [now rewrite Hi|].
    exfalso. apply Hnotin. rewrite E. now apply in_map.
  - destruct Hin as [->|Hin]; [contradiction|].
    now rewrite IH.
Qed.

Lemma token_findOne_email_view email db1 db2 :
  map login_view db1 = map login_view db2 ->
  option_map login_view (findOne_email email db1)
  = option_map login_view (findOne_email email db2).
Proof.
  unfold findOne_email. revert db2.
  induction db1 as [|d1 rest1 IH]; intros [|d2 rest2] H;
    try discriminate H; [reflexivity|].
  cbn [map] in H.
  assert (Hv : login_view d1 = login_view d2) by congruence.
  assert (Hrest : map login_view rest1 = map login_view rest2) by congruence.
  assert (He : User.email d1 = User.email d2)
    by (unfold login_view in Hv; congruence).
  clear H.
  cbn [find]. rewrite <- He.
  destruct (String.eqb (User.email d1) email).
  - cbn [option_map]. now rewrite Hv.
  - now apply IH.
Qed.

End TokenLoginViewStore.

Section LoginView.
Context {C : Collaborators}.

(** [login] reads nothing but the login view of the documents. *)
Lemma login_reads_view email password chat_ok db1 db2 :
  map ServerJsRest.login_view db1 = map ServerJsRest.login_view db2 ->
  ServerJs.login email password chat_ok db1
  = ServerJs.login email password chat_ok db2.
Proof.
  intros H. apply (findOne_email_view email) in H. unfold ServerJs.login.
  destruct (ServerJs.findOne_email email db1) as [u1|],
           (ServerJs.findOne_email email db2) as [u2|];
    simpl in H; try discriminate; [|reflexivity].
  injection H as He Hp Hs Hi Hn Hph.
  now rewrite Hp, Hs, Hi, Hn, He, Hph.
Qed.

Lemma token_login_reads_view email password chat_ok db1 db2 :
  map Part000Rest.login_view db1 = map Part000Rest.login_view db2 ->
  Part000Rest.login email password chat_ok db1
  = Part000Rest.login email password chat_ok db2.
Proof.
  intros H. apply (token_findOne_email_view email) in H.
  unfold Part000Rest.login.
  destruct (Part000.findOne_email email db1) as [u1|],
           (Part000.findOne_email email db2) as [u2|];
    simpl in H; try discriminate; [|reflexivity].
  injection H as He Hp Hs Hi Hn Hph.
  now rewrite Hp, Hs, Hi, Hn, He, Hph.
Qed.

End LoginView.

Section LoginUnaffected.
Context {C : Collaborators}.

(** X19: with unique ids, asking for a reset code or setting an avatar
    changes the answer of no login: a reset request alone neither locks
    the user out nor touches the credential. *)
Theorem login_unaffected_by_request db :
  NoDup (map ServerJs.User._id db) ->
  (forall email now1 now2 random mail_ok login_email password chat_ok,
      ServerJs.login login_email password chat_ok
        (snd (ServerJs.request_reset email now1 now2 random mail_ok db))
      = ServerJs.login login_email password chat_ok db)
  /\ (forall id avatar login_email password chat_ok,
         ServerJs.login login_email password chat_ok
           (snd (ServerJs.update_avatar id avatar db))
         = ServerJs.login login_email password chat_ok db).
Proof.
  intros Hnd. split; intros; apply login_reads_view.
  - destruct (request_reset_writes email now1 now2 random mail_ok db)
      as [->|(user & Hf & ->)]; [reflexivity|].
    apply map_updateById_const; [assumption| |reflexivity].
    now apply findOne_email_Some in Hf.
  - unfold ServerJs.update_avatar.
    destruct (castObjectId id); [|reflexivity]. simpl.
    now apply map_updateById_keep.
Qed.

(** X20: with unique ids, asking for a reset token in [part_000]
    changes the answer of no login. *)
Theorem login_unaffected_by_forgot_password db :
  NoDup (map Part000.User._id db) ->
  forall email randomBytes now mail_ok login_email password chat_ok,
    Part000Rest.login login_email password chat_ok
      (snd (Part000.forgot_password email randomBytes now mail_ok db))
    = Part000Rest.login login_email password chat_ok db.
Proof.
  intros Hnd *. apply token_login_reads_view.
  destruct (forgot_password_writes email randomBytes now mail_ok db)
    as [->|(user & Hf & ->)]; [reflexivity|].
  apply token_map_updateById_const; [assumption| |reflexivity].
  now apply token_findOne_email_Some in Hf.
Qed.

(** X21: with unique emails, a user whose document [delete_user]
    removed can no longer log in, also when the chat provider failed;
    logins with every other email are answered as before. *)
Theorem delete_user_then_login id chat_ok db userId user :
  castObjectId id = Some userId ->
  NoDup (map ServerJs.User.email db) ->
  ServerJs.findById userId db = Some user ->
  (forall password chat_ok',
      ServerJs.login (ServerJs.User.email user) password chat_ok'
        (snd (ServerJsRest.delete_user id chat_ok db))
      = Respond 400 (BError "Invalid email or password"))
  /\ (forall other password chat_ok',
         other <> ServerJs.User.email user ->
         ServerJs.login other password chat_ok'
           (snd (ServerJsRest.delete_user id chat_ok db))
         = ServerJs.login other password chat_ok' db).
Proof.
  intros Hc Hnd Hf.
  assert (E : snd (ServerJsRest.delete_user id chat_ok db)
              = ServerJsRest.removeById userId db).
  { unfold ServerJsRest.delete_user. rewrite Hc, Hf. now destruct chat_ok. }
  rewrite E.
  destruct (findOne_email_removeById db userId user Hnd Hf) as [H1 H2].
  split.
  - intros. unfold ServerJs.login. now rewrite H1.
  - intros other password chat_ok' Hne. unfold ServerJs.login.
    now rewrite (H2 other Hne).
Qed.

End LoginUnaffected.

Lemma two_emails_unique :
  NoDup (map ServerJs.User.email [Fixture.alice; Fixture.bob]).
Proof.
  constructor.
  - intros [H|[]]. discriminate H.
  - constructor; [intros []|constructor].
Defined.

(** Somebody asks for a reset code for alice; she logs in as before. *)
Lemma login_unaffected_by_request_witness :
  ServerJs.login "alice@example.com" (Some "OldPass1") true
    (snd (ServerJs.request_reset "alice@example.com" 2000 2001 0 true
            [Fixture.alice; Fixture.bob]))
  = ServerJs.login "alice@example.com" (Some "OldPass1") true
      [Fixture.alice; Fixture.bob].
Proof.
  apply (proj1 (@login_unaffected_by_request Fixture.collaborators
                  [Fixture.alice; Fixture.bob] two_ids_unique)).
Defined.

(** Somebody asks for a reset token for carol. *)
Lemma login_unaffected_by_forgot_password_witness :
  Part000Rest.login "carol@example.com" (Some "OldPass3") true
    (snd (Part000.forgot_password "carol@example.com" Fixture.bytes20 6000
            true [Fixture.carol]))
  = Part000Rest.login "carol@example.com" (Some "OldPass3") true
      [Fixture.carol].
Proof.
  apply (@login_unaffected_by_forgot_password Fixture.collaborators
           [Fixture.carol] (one_is_unique _)).
Defined.

(** Alice is deleted and tries to log in. *)
Lemma delete_user_then_login_witness :
  ServerJs.login "alice@example.com" (Some "OldPass1") true
    (snd (ServerJsRest.delete_user "000000000000000000000001" true
            [Fixture.alice; Fixture.bob]))
  = Respond 400 (BError "Invalid email or password").
Proof.
  apply (proj1 (@delete_user_then_login Fixture.collaborators
                  "000000000000000000000001" true
                  [Fixture.alice; Fixture.bob] 1%N Fixture.alice eq_refl
                  two_emails_unique eq_refl)).
Defined.

(** ** Outcomes of signup and of a reset, read backwards *)

Section Outcomes.
Context {C : Collaborators}.

Lemma complete_guard name email password phone validId selfie :
  negb (truthy name) || negb (truthy email) || negb (truthy password)
  || negb (truthy phone) || negb (truthy validId) || negb (truthy selfie)
  = false
  <-> complete name email password phone validId selfie.
Proof.
  unfold complete.
  destruct (truthy name), (truthy email), (truthy password), (truthy phone),
    (truthy validId), (truthy selfie); simpl; intuition discriminate.
Qed.

(** X22: for a signup body each of whose six fields is a string or
    absent, and provided [bcrypt.hash] returns a non-empty digest,
    [signup] of [part_000] answers 201 exactly when the six fields are
    non-empty strings and neither the email nor the phone is already
    stored; whenever the answer is not 201 the collection is left as it
    is.  A body with a field of another JSON type is not covered. *)
Theorem token_signup_created_iff name email password phone validId selfie salt
        newId db :
  bcrypt_hash salt (str password) <> "" ->
  (status_of
     (fst (Part000.signup name email password phone validId selfie salt newId
             db)) = Some 201
   <-> complete name email password phone validId selfie
       /\ Part000.findOne_email (str email) db = None
       /\ Part000.findOne_phone (str phone) db = None)
  /\ (status_of
        (fst (Part000.signup name email password phone validId selfie salt
                newId db)) <> Some 201 ->
      snd (Part000.signup name email password phone validId selfie salt newId
             db) = db).
Proof.
  intros Hh. split; [split|].
  - unfold Part000.signup.
    destruct (_ || _) eqn:G; [discriminate|].
    apply complete_guard in G.
    destruct (Part000.findOne_email (str email) db); [discriminate|].
    destruct (Part000.findOne_phone (str phone) db); [discriminate|].
    intros _. split; [exact G|split; reflexivity].
  - intros (Hc & He & Hp).
    now rewrite (token_signup_stores _ _ _ _ _ _ salt newId db Hc He Hp Hh).
  - unfold Part000.signup.
    destruct (_ || _); [reflexivity|].
    destruct (Part000.findOne_email (str email) db); [reflexivity|].
    destruct (Part000.findOne_phone (str phone) db); [reflexivity|].
    cbv zeta. destruct (Part000.insert _ db); simpl; [reflexivity|].
    intros H. now contradiction H.
Qed.

(** X23: in [part_000] a reset is answered 200 only if some document
    holds exactly the supplied token together with an expiry strictly
    after the clock reading. *)
Theorem reset_password_needs_token token password salt now db payload db' :
  Part000.reset_password token password salt now db
  = (Respond 200 payload, db') ->
  exists user expiry,
    In user db
    /\ Part000.User.resetPasswordToken user = Some token
    /\ Part000.User.resetPasswordExpires user = Some expiry
    /\ now < expiry.
Proof.
  intros H.
  apply reset_password_200 in H as (user & _ & Hf & _).
  apply findOne_token_Some in Hf as (Hin & Ht & He).
  destruct (Part000.User.resetPasswordExpires user) as [expiry|] eqn:Hx;
    [|discriminate].
  exists user, expiry. simpl in He. apply Z.ltb_lt in He.
  now repeat split.
Qed.

(** X24: once [request_reset] has issued a new code, every other value
    of the code field, the earlier code and an absent one included, is
    refused by [verify_reset] and writes nothing. *)
Theorem request_reset_supersedes email now1 now2 random mail_ok db user old
        password salt now3 now4 :
  ServerJs.findOne_email email db = Some user ->
  date_gt (ServerJs.User.resetCodeExpires user) now1 = false ->
  ServerJs.required_missing user = [] ->
  old <> Some (ServerJs.reset_code random) ->
  let db1 := snd (ServerJs.request_reset email now1 now2 random mail_ok db) in
  ServerJs.verify_reset email old password salt now3 now4 db1
  = (ServerJs.invalid_or_expired_code, db1).
Proof.
  intros Hf Hg Hv Hne db1.
  pose proof (findOne_email_Some _ _ _ Hf) as [_ He].
  apply verify_reset_code_differs
    with (user := ServerJs.issued (ServerJs.reset_code random) now2 user).
  - unfold db1. rewrite (request_reset_issues _ _ _ _ _ _ _ Hf Hg Hv).
    exact (findOne_email_updateById email db user
             (ServerJs.issued (ServerJs.reset_code random) now2 user) Hf He).
  - simpl. intros E. now apply Hne.
Qed.

End Outcomes.

(** Dana's body is complete and her email and phone are new. *)
Lemma token_signup_created_iff_witness :
  status_of
    (fst (Part000.signup (Some "Dana") (Some "dana@example.com")
            (Some "Passw0rd") (Some "0920") (Some "id.png") (Some "me.png")
            "s4" 9 [Fixture.carol])) = Some 201.
Proof.
  apply (proj2 (proj1 (@token_signup_created_iff Fixture.collaborators
                         (Some "Dana") (Some "dana@example.com")
                         (Some "Passw0rd") (Some "0920") (Some "id.png")
                         (Some "me.png") "s4" 9%N [Fixture.carol]
                         ltac:(discriminate)))).
  repeat apply conj; reflexivity.
Defined.

(** Carol's reset at 1000 was answered 200. *)
Lemma reset_password_needs_token_witness :
  exists user expiry,
    In user [Fixture.carol]
    /\ Part000.User.resetPasswordToken user
       = Some "00ff00ff00ff00ff00ff00ff00ff00ff00ff00ff"
    /\ Part000.User.resetPasswordExpires user = Some expiry
    /\ 1000 < expiry.
Proof.
  apply (@reset_password_needs_token Fixture.collaborators
           "00ff00ff00ff00ff00ff00ff00ff00ff00ff00ff" (Some "NewPass3") "s9"
           1000 [Fixture.carol]
           (BMessage "Password has been reset successfully")
           [Part000.cleared "s9" "NewPass3" Fixture.carol] eq_refl).
Defined.


(** Alice's code 123456 has expired; she is issued 100000 and tries the
    old one. *)
Lemma request_reset_supersedes_witness :
  fst (ServerJs.verify_reset "alice@example.com" (Some "123456")
         (Some "NewPass1") "s9" 2002 2002
         (snd (ServerJs.request_reset "alice@example.com" 2000 2001 0 true
                 [Fixture.alice_code])))
  = ServerJs.invalid_or_expired_code.
Proof.
  exact (f_equal fst
           (@request_reset_supersedes Fixture.collaborators
              "alice@example.com" 2000 2001 0 true [Fixture.alice_code]
              Fixture.alice_code (Some "123456") (Some "NewPass1") "s9" 2002
              2002 eq_refl eq_refl eq_refl ltac:(vm_compute; discriminate))).
Defined.

(** ** Signup of [src/server.js] on every input *)

Section ServerSignup.
Context {C : Collaborators}.
Import ServerJs.

(** X10: [signup] of [src/server.js] never adds a document and never
    answers 201, whatever the body and the collection.  A complete body
    with a new email and a new phone is answered 500 with a validation
    error on [age] and [gender], the two required paths that the handler
    does not set. *)
Theorem server_signup_never_creates name email password phone validId selfie
        salt newId db :
  snd (signup name email password phone validId selfie salt newId db) = db
  /\ status_of
       (fst (signup name email password phone validId selfie salt newId db))
     <> Some 201
  /\ (complete name email password phone validId selfie ->
      findOne_email (str email) db = None ->
      findOne_phone (str phone) db = None ->
      bcrypt_hash salt (str password) <> "" ->
      fst (signup name email password phone validId selfie salt newId db)
      = Respond 500
          (BErrorDetails "Internal server error"
             (ValidationError ["age"; "gender"]))).
Proof.
  destruct (signup_never_stores name email password phone validId selfie salt
              newId db) as [Hs Hn].
  split; [assumption|split; [assumption|]].
  intros (H1 & H2 & H3 & H4 & H5 & H6) He Hp Hh. unfold signup.
  rewrite H1, H2, H3, H4, H5, H6, He, Hp. simpl.
  unfold insert, required_missing. simpl.
  rewrite (truthy_str _ H1), (truthy_str _ H2), (truthy_str _ H4).
  apply String.eqb_neq in Hh. now rewrite Hh.
Qed.

End ServerSignup.

(** Dana's complete body on a collection that holds only alice. *)
Lemma server_signup_never_creates_witness :
  fst (ServerJs.signup (Some "Dana") (Some "dana@example.com")
         (Some "Passw0rd") (Some "0920") (Some "id.png") (Some "me.png")
         "s4" 9 [Fixture.alice])
  = Respond 500
      (BErrorDetails "Internal server error"
         (ValidationError ["age"; "gender"])).
Proof.
  apply (proj2 (proj2 (@server_signup_never_creates Fixture.collaborators
                         (Some "Dana") (Some "dana@example.com")
                         (Some "Passw0rd") (Some "0920") (Some "id.png")
                         (Some "me.png") "s4" 9%N [Fixture.alice]))).
  - repeat apply conj; reflexivity.
  - reflexivity.
  - reflexivity.
  - discriminate.
Defined.
